(** * Simulador de transferencia de masa: correlaciones de Sherwood

    A shallow embedding of [simulador.py]: the correlation evaluator
    [calcular_sherwood], the result callback [actualizar_resultados] and the
    plot callback [actualizar_grafica], with the properties of their
    specification.

    Python floats are read as exact real numbers: the arithmetic of the
    source ([+], [*], [/], [**], [np.log10]) is the arithmetic of [R], so
    rounding and overflow of binary64 are outside the model.  What Python's
    dynamic typing adds on top of the reals is kept: [**] with a negative
    base answers a [complex], an order comparison on a [complex] raises
    [TypeError], [float()] of a string raises [ValueError] or answers a
    finite number, an infinity or a NaN.

    Where a property turns on the last bit of a product, the operation is
    stated on the binary64 floats of the kernel as well ([kc_binary64]);
    the other properties are worded so that the rounding does not decide
    them. *)

From Stdlib Require Import PrimFloat FloatOps SpecFloat.
From Stdlib Require Import Reals Lra Lia ZArith NArith List String Ascii Bool.
From Stdlib Require Import Decimal DecimalFacts DecimalPos DecimalN DecimalString.
Import ListNotations.

Open Scope R_scope.

(** ** Exceptions *)

Module Exn.

Inductive exn : Type :=
| ValueError
| TypeError.

(** A computation that either raises or returns. *)
Definition M (A : Type) : Type := (exn + A)%type.

Definition ret {A} (a : A) : M A := inr a.
Definition raise {A} (e : exn) : M A := inl e.

Definition bind {A B} (m : M A) (k : A -> M B) : M B :=
  match m with
  | inl e => inl e
  | inr a => k a
  end.

(** [try: m except ValueError: h] *)
Definition try_except_ValueError {A} (m : M A) (h : M A) : M A :=
  match m with
  | inl ValueError => h
  | other => other
  end.

End Exn.
Import Exn.

Notation "x <- m ;; k" := (bind m (fun x => k))
  (at level 61, m at next level, right associativity).
Notation "' p <- m ;; k" := (bind m (fun x => let 'p := x in k))
  (at level 61, p pattern, m at next level, right associativity).

(** ** Numbers *)

Definition Rltb (a b : R) : bool := if Rlt_dec a b then true else false.
Definition Rleb (a b : R) : bool := if Rle_dec a b then true else false.
Definition Rgtb (a b : R) : bool := Rltb b a.

(** The value of a Python arithmetic expression over floats: a [float], or
    the [complex] that [**] produces from a negative base. *)
Inductive num : Type :=
| Real (x : R)
| Complex (re im : R).

Definition re_part (a : num) : R :=
  match a with Real x => x | Complex re _ => re end.

Definition im_part (a : num) : R :=
  match a with Real _ => 0 | Complex _ im => im end.

(** [a + b]: a float when both are, else the complex sum. *)
Definition num_add (a b : num) : num :=
  match a, b with
  | Real x, Real y => Real (x + y)
  | _, _ => Complex (re_part a + re_part b) (im_part a + im_part b)
  end.

(** [a * b]: a float when both are, else the complex product. *)
Definition num_mul (a b : num) : num :=
  match a, b with
  | Real x, Real y => Real (x * y)
  | _, _ => Complex (re_part a * re_part b - im_part a * im_part b)
                    (re_part a * im_part b + im_part a * re_part b)
  end.

(** [x ** y] for floats [x], [y] where [y] is positive and not an integer,
    as are the four exponent literals of the source (0.8, 0.5, 1/3, 0.6):
    the power for a positive base, [0.0] for a zero base, and for a negative
    base the complex number of modulus [|x|^y] and argument [pi*y].  The
    cases that [float.__pow__] treats apart ([y = 0], an integral [y], a
    zero base with a negative [y], which raises) need an exponent outside
    that range. *)
Definition float_pow (x y : R) : num :=
  if Rlt_dec 0 x then Real (Rpower x y)
  else if Rlt_dec x 0 then
    Complex (Rpower (- x) y * cos (PI * y)) (Rpower (- x) y * sin (PI * y))
  else Real 0.

Declare Scope num_scope.
Delimit Scope num_scope with num.
Bind Scope num_scope with num.
Infix "+" := num_add : num_scope.
Infix "*" := num_mul : num_scope.
Infix "**" := float_pow (at level 30, right associativity) : num_scope.
Coercion Real : R >-> num.

(** [a > b] and [a < b] with a float or complex left operand and a float
    right operand: Python refuses to order a complex. *)
Definition num_gt (a : num) (b : R) : M bool :=
  match a with
  | Real x => ret (Rgtb x b)
  | Complex _ _ => raise TypeError
  end.

Definition num_lt (a : num) (b : R) : M bool :=
  match a with
  | Real x => ret (Rltb x b)
  | Complex _ _ => raise TypeError
  end.

(** ** The correlation evaluator *)

Open Scope string_scope.

Definition calcular_sherwood (geometria : string) (Re Sc : R)
    (usar_DAB : bool) : num :=
  if negb usar_DAB then Real 0.0
  else if geometria =? "placa" then
    (Real 0.037 * (Re ** 0.8) * (Sc ** (1/3)))%num
  else if geometria =? "tubo" then
    (Real 0.023 * (Re ** 0.8) * (Sc ** (1/3)))%num
  else if geometria =? "esfera" then
    (Real 2.0 + Real 0.6 * (Re ** 0.5) * (Sc ** (1/3)))%num
  else if geometria =? "gota" then
    (Real 2.0 + Real 0.6 * (Re ** 0.5) * (Sc ** (1/3)))%num
  else if geometria =? "lecho empacado" then
    (Real 1.15 * (Re ** 0.6) * (Sc ** (1/3)))%num
  else Real 0.0.

(** The options of the geometry dropdown, each a label and a value. *)
Definition opciones_geometria : list (string * string) :=
  [ ("Placa Plana", "placa");
    ("Tubo", "tubo");
    ("Esfera", "esfera");
    ("Gota", "gota");
    ("Lecho Empacado", "lecho empacado") ].

(** The values the dropdown can send. *)
Definition geometrias : list string := map snd opciones_geometria.

(** ** Strings: [str.capitalize], format specifications, [float()]

    A Python [str] is read as its sequence of bytes; the case mapping and
    the number grammar below are those of ASCII text, which covers the
    geometry names and the display strings the callbacks exchange. *)

Module PyStr.

Definition code (c : ascii) : N := N_of_ascii c.

Definition is_digit (c : ascii) : bool :=
  ((48 <=? code c) && (code c <=? 57))%N.

Definition is_upper (c : ascii) : bool :=
  ((65 <=? code c) && (code c <=? 90))%N.

Definition is_lower (c : ascii) : bool :=
  ((97 <=? code c) && (code c <=? 122))%N.

(** The whitespace that [float()] strips from an ASCII string. *)
Definition is_space (c : ascii) : bool :=
  (((9 <=? code c) && (code c <=? 13)) || (code c =? 32))%N.

Definition to_lower (c : ascii) : ascii :=
  if is_upper c then ascii_of_N (code c + 32) else c.

Definition to_upper (c : ascii) : ascii :=
  if is_lower c then ascii_of_N (code c - 32) else c.

Fixpoint map_string (f : ascii -> ascii) (s : string) : string :=
  match s with
  | EmptyString => EmptyString
  | String c r => String (f c) (map_string f r)
  end.

(** [s.capitalize()]: first character in upper case, the rest in lower
    case. *)
Definition capitalize (s : string) : string :=
  match s with
  | EmptyString => EmptyString
  | String c r => String (to_upper c) (map_string to_lower r)
  end.

(** *** Rendering *)

Definition dec (n : Z) : string :=
  NilZero.string_of_uint (N.to_uint (Z.to_N n)).

Fixpoint zeros (k : nat) : string :=
  match k with
  | O => ""
  | S k' => String "0" (zeros k')
  end.

(** Left padding with zeros up to [w] characters. *)
Definition zfill (w : nat) (s : string) : string :=
  zeros (w - String.length s) ++ s.

(** The digits of [n / 10^p] with [p] decimals, for [0 <= n]. *)
Definition fixed (n : Z) (p : nat) : string :=
  let d := (10 ^ Z.of_nat p)%Z in
  dec (n / d) ++
  match p with
  | O => ""
  | S _ => "." ++ zfill p (dec (n mod d))
  end.

(** Rounding to the nearest integer, ties to the even one. *)
Definition round_half_even (x : R) : Z :=
  let n := Int_part x in
  let d := x - IZR n in
  if Rlt_dec d (1/2) then n
  else if Rlt_dec (1/2) d then (n + 1)%Z
  else if Z.even n then n else (n + 1)%Z.

Definition sign_of (x : R) : string :=
  if Rlt_dec x 0 then "-" else "".

(** [f"{x:.pf}"] for a finite float. *)
Definition format_f (p : nat) (x : R) : string :=
  sign_of x ++ fixed (round_half_even (Rabs x * 10 ^ p)) p.

(** [f"{x:.pe}"] for a finite float: one digit, [p] decimals and a
    decimal exponent of at least two digits; a mantissa that rounds up to
    [10] moves to the next exponent. *)
Definition format_e (p : nat) (x : R) : string :=
  if Req_dec_T x 0 then fixed 0 p ++ "e+00"
  else
    let e := Int_part (ln (Rabs x) / ln 10) in
    let m := round_half_even (Rabs x / powerRZ 10 (e - Z.of_nat p)) in
    let '(m, e) :=
      if (m =? 10 ^ Z.of_nat (S p))%Z
      then ((10 ^ Z.of_nat p)%Z, (e + 1)%Z) else (m, e) in
    sign_of x ++ fixed m p ++ "e" ++
    (if (e <? 0)%Z then "-" else "+") ++ zfill 2 (dec (Z.abs e)).

Inductive presentation : Type := type_f | type_e.

Definition format_float (t : presentation) (p : nat) (x : R) : string :=
  match t with
  | type_f => format_f p x
  | type_e => format_e p x
  end.

(** The same specification applied to a [num]: a complex is rendered as
    its real part followed by the signed imaginary part and [j]. *)
Definition format_num (t : presentation) (p : nat) (a : num) : string :=
  match a with
  | Real x => format_float t p x
  | Complex re im =>
      format_float t p re ++
      (if Rlt_dec im 0 then "" else "+") ++ format_float t p im ++ "j"
  end.

(** *** Parsing *)

Fixpoint lstrip (s : string) : string :=
  match s with
  | String c r => if is_space c then lstrip r else s
  | EmptyString => EmptyString
  end.

Fixpoint rev_string (acc s : string) : string :=
  match s with
  | EmptyString => acc
  | String c r => rev_string (String c acc) r
  end.

Definition strip (s : string) : string :=
  rev_string "" (lstrip (rev_string "" (lstrip s))).

(** Underscores are digit separators: one may stand between two digits
    and nowhere else.  [prev] is the character before [s]. *)
Fixpoint drop_underscores (prev : option ascii) (s : string)
    : option string :=
  let after_digit :=
    match prev with Some p => is_digit p | None => false end in
  let after_underscore :=
    match prev with Some p => Ascii.eqb p "_" | None => false end in
  match s with
  | EmptyString => if after_underscore then None else Some ""
  | String c r =>
      if Ascii.eqb c "_" then
        if after_digit then drop_underscores (Some c) r else None
      else if after_underscore && negb (is_digit c) then None
      else option_map (String c) (drop_underscores (Some c) r)
  end.

(** The leading digits of [s], accumulated on [acc], with their number
    and the rest of the string. *)
Fixpoint digits (acc : N) (count : nat) (s : string)
    : N * nat * string :=
  match s with
  | String c r =>
      if is_digit c
      then digits (acc * 10 + (code c - 48))%N (S count) r
      else (acc, count, s)
  | EmptyString => (acc, count, s)
  end.

Definition sign (s : string) : bool * string :=
  match s with
  | String "-" r => (true, r)
  | String "+" r => (false, r)
  | _ => (false, s)
  end.

(** A parsed literal: a decimal [(-1)^neg * mant * 10^expo], an infinity
    or a NaN. *)
Inductive literal : Type :=
| Decimal (neg : bool) (mant : N) (expo : Z)
| Infinity (neg : bool)
| NotANumber.

(** [e] or [E], an optional sign and at least one digit, up to the end
    of the string; or nothing at all. *)
Definition exponent (s : string) : option Z :=
  match s with
  | EmptyString => Some 0%Z
  | String c r =>
      if Ascii.eqb (to_lower c) "e" then
        let '(neg, r1) := sign r in
        match digits 0 0 r1 with
        | (_, O, _) => None
        | (e, S _, EmptyString) =>
            Some (if neg then (- Z.of_N e)%Z else Z.of_N e)
        | (_, S _, String _ _) => None
        end
      else None
  end.

(** Digits, an optional point and digits, with at least one digit in
    all, then the exponent. *)
Definition decimal (neg : bool) (s : string) : option literal :=
  let '(ip, ni, r1) := digits 0 0 s in
  let '(m, nf, r2) :=
    match r1 with
    | String "." r => digits ip 0 r
    | _ => (ip, O, r1)
    end in
  match (ni + nf)%nat with
  | O => None
  | S _ =>
      option_map (fun e => Decimal neg m (e - Z.of_nat nf)) (exponent r2)
  end.

Definition parse_literal (s : string) : option literal :=
  match drop_underscores None (strip s) with
  | None => None
  | Some t =>
      let '(neg, body) := sign t in
      let word := map_string to_lower body in
      if (word =? "inf") || (word =? "infinity") then Some (Infinity neg)
      else if word =? "nan" then Some NotANumber
      else decimal neg body
  end.

End PyStr.

(** A Python [float]: a finite real, an infinity or a NaN. *)
Inductive pyfloat : Type :=
| Fin (x : R)
| PInf
| NInf
| NaN.

Definition value_of (l : PyStr.literal) : pyfloat :=
  match l with
  | PyStr.Decimal neg m e =>
      let v := (IZR (Z.of_N m) * powerRZ 10 e)%R in
      Fin (if neg then - v else v)
  | PyStr.Infinity neg => if neg then NInf else PInf
  | PyStr.NotANumber => NaN
  end.

(** [float(s)] for a string [s]; [None] stands for [ValueError]. *)
Definition float_of_string (s : string) : option pyfloat :=
  option_map value_of (PyStr.parse_literal s).

(** [f"{v:.pt}"] for any float. *)
Definition format_pyfloat (t : PyStr.presentation) (p : nat) (v : pyfloat)
    : string :=
  match v with
  | Fin x => PyStr.format_float t p x
  | PInf => "inf"
  | NInf => "-inf"
  | NaN => "nan"
  end.

(** ** The result callback *)

(** The [children] of the interpretation block: a plain text, or the
    [html.Ul] of one [html.Li(html.Span(item))] per statement. *)
Inductive children : Type :=
| Texto (s : string)
| Ul (items : list string).

Definition advertencia : string :=
  "⚠️ **ADVERTENCIA:** Debe marcar la casilla 'Usar valor DAB' e ingresar un Coeficiente de Difusión (DAB) " ++
  "válido y mayor a cero para poder calcular el Número de Sherwood (Sh) y el Coeficiente $k_c$.".

(** The statements on [Re]. *)
Definition re_alto (Re : R) : string :=
  "• **Re alto (" ++ PyStr.format_f 0 Re ++
  ")** → Flujo **Turbulento** → Mayor $\boldsymbol{k_c}$ (Transferencia Dominada por **Convección**).".

Definition re_bajo (Re : R) : string :=
  "• **Re bajo (" ++ PyStr.format_f 0 Re ++
  ")** → Flujo **Laminar** → Menor $\boldsymbol{k_c}$.".

Definition re_moderado (Re : R) : string :=
  "• **Re moderado (" ++ PyStr.format_f 0 Re ++
  ")** → Flujo de Transición.".

(** The statements on [Sc]. *)
Definition sc_alto (Sc : R) : string :=
  "• **Sc alto (" ++ PyStr.format_f 0 Sc ++
  ")** → Difusión Lenta (**Líquidos**) → Menor $\boldsymbol{k_c}$ (Resistencia a la difusión alta).".

Definition sc_bajo (Sc : R) : string :=
  "• **Sc bajo (" ++ PyStr.format_f 1 Sc ++
  ")** → Difusión Rápida (**Gases**) → Mayor $\boldsymbol{k_c}$.".

Definition sc_moderado (Sc : R) : string :=
  "• **Sc moderado (" ++ PyStr.format_f 1 Sc ++ ")**".

(** The three values of [comb]. *)
Definition conveccion_forzada : string :=
  "**Convección Forzada Dominante**".

Definition difusion_lenta : string :=
  "**Difusión Lenta Dominante**".

Definition combinada : string :=
  "**Transferencia combinada convección/difusión**".

Definition combinacion (comb geometria : string) : string :=
  "• **Combinación actual:** " ++ comb ++ " para la geometría de **" ++
  PyStr.capitalize geometria ++ "**.".

(** The local variables of [actualizar_resultados] when it reaches its
    formatting step. *)
Record locals : Type := Locals {
  Sh : num;
  kc : num;
  interpretacion : children
}.

(** The characteristic length, one metre. *)
Definition L_caracteristica : R := 1.0.

(** The guard [not usar_DAB or DAB is None or DAB <= 0], read from left to
    right: [None] when it holds, else the diffusivity. *)
Definition DAB_valido (usar_DAB : bool) (DAB : option R) : option R :=
  if negb usar_DAB then None
  else
    match DAB with
    | None => None
    | Some d => if Rleb d 0 then None else Some d
    end.

(** [actualizar_resultados] up to its formatting step.  [checklist_dab] is
    the list of ticked values of the checklist and [DAB] the content of the
    numeric input, [None] when it is empty. *)
Definition resultados (geometria : string) (Re Sc : R)
    (checklist_dab : list string) (DAB : option R) : M locals :=
  let usar_DAB := existsb (String.eqb "DAB_ON") checklist_dab in
  let kc := Real 0.0 in
  match DAB_valido usar_DAB DAB with
  | None =>
      let Sh := Real 0.0 in
      ret (Locals Sh kc (Texto advertencia))
  | Some DAB =>
      let Sh := calcular_sherwood geometria Re Sc usar_DAB in
      let kc := (Sh * Real (DAB / L_caracteristica))%num in
      let interpretacion_parts := [] in
      let interpretacion_parts := (interpretacion_parts ++
        [ if Rgtb Re 5000 then re_alto Re
          else if Rltb Re 500 then re_bajo Re
          else re_moderado Re ])%list in
      let interpretacion_parts := (interpretacion_parts ++
        [ if Rgtb Sc 1000 then sc_alto Sc
          else if Rltb Sc 1 then sc_bajo Sc
          else sc_moderado Sc ])%list in
      sh_alto <- num_gt Sh 1000 ;;
      comb <-
        (if sh_alto && Rgtb Re 5000 then ret conveccion_forzada
         else
           sh_bajo <- num_lt Sh 100 ;;
           if sh_bajo && Rgtb Sc 1000 then ret difusion_lenta
           else ret combinada) ;;
      let interpretacion_parts := (interpretacion_parts ++
        [ combinacion comb geometria ])%list in
      ret (Locals Sh kc (Ul interpretacion_parts))
  end.

(** Line 182 on the binary64 floats themselves:
    [kc = Sh * (DAB / L_caracteristica)] with [L_caracteristica = 1.0],
    each operation rounded to the nearest float. *)
Definition kc_binary64 (Sh DAB : float) : float :=
  (Sh * (DAB / 1.0))%float.

(** The callback: the two display strings and the interpretation. *)
Definition actualizar_resultados (geometria : string) (Re Sc : R)
    (checklist_dab : list string) (DAB : option R)
    : M (string * string * children) :=
  l <- resultados geometria Re Sc checklist_dab DAB ;;
  let sh_str := PyStr.format_num PyStr.type_f 2 (Sh l) in
  let kc_str := PyStr.format_num PyStr.type_e 2 (kc l) in
  ret (sh_str, kc_str, interpretacion l).

(** ** The plot callback *)

Definition pf_gt (a b : pyfloat) : bool :=
  match a, b with
  | NaN, _ | _, NaN => false
  | Fin x, Fin y => Rgtb x y
  | PInf, (Fin _ | NInf) => true
  | Fin _, NInf => true
  | _, _ => false
  end.

(** [a + c] for a finite [c]. *)
Definition pf_add (a : pyfloat) (c : R) : pyfloat :=
  match a with
  | Fin x => Fin (x + c)
  | other => other
  end.

(** [np.log10]. *)
Definition log10 (a : pyfloat) : pyfloat :=
  match a with
  | Fin x =>
      if Rlt_dec 0 x then Fin (ln x / ln 10)
      else if Rlt_dec x 0 then NaN
      else NInf
  | PInf => PInf
  | NInf => NaN
  | NaN => NaN
  end.

(** [max(a, b)]: the first argument unless the second is greater. *)
Definition py_max (a b : pyfloat) : pyfloat :=
  if pf_gt b a then b else a.

(** What the callback hands to the chart: the marker, its label and the
    two axis ranges, given as decimal logarithms for the logarithmic
    axes. *)
Record figure : Type := Figure {
  x : pyfloat;
  y : pyfloat;
  text : string;
  xaxis_range : pyfloat * pyfloat;
  yaxis_range : pyfloat * pyfloat
}.

Section Grafica.

(** The builtin [float], [None] standing for [ValueError]. *)
Variable float : string -> option pyfloat.

Definition to_float (s : string) : M pyfloat :=
  match float s with
  | Some v => ret v
  | None => raise ValueError
  end.

Definition actualizar_grafica_con (Sh_str kc_str : string) : M figure :=
  '(Sh, kc) <-
    try_except_ValueError
      (Sh <- to_float Sh_str ;;
       kc <- to_float kc_str ;;
       ret (Sh, kc))
      (ret (Fin 1.0, Fin 1e-10)) ;;
  let sh_min := Fin 0.0 in
  let sh_max := Fin 4.3 in
  let kc_min := Fin (-12.0) in
  let kc_max := Fin (-3.0) in
  let sh_max :=
    if pf_gt Sh (Fin 0) then py_max sh_max (pf_add (log10 Sh) 0.5)
    else sh_max in
  let kc_max :=
    if pf_gt kc (Fin 0) then py_max kc_max (pf_add (log10 kc) 0.5)
    else kc_max in
  ret (Figure Sh kc
         ("Sh: " ++ format_pyfloat PyStr.type_f 2 Sh ++ "<br>kc: " ++
          format_pyfloat PyStr.type_e 2 kc)
         (sh_min, sh_max) (kc_min, kc_max)).

End Grafica.

(** The callback, with [float] read on ASCII text. *)
Definition actualizar_grafica : string -> string -> M figure :=
  actualizar_grafica_con float_of_string.

(** ** The controls of the layout *)

(** A [dcc.Slider]: its ends, its step and its initial value. *)
Record slider : Type := Slider {
  slider_min : R;
  slider_max : R;
  slider_step : R;
  slider_value : R
}.

(** [slider-re], the Reynolds number. *)
Definition slider_re : slider := Slider 100 10000 100 1000.

(** [slider-sc], the Schmidt number. *)
Definition slider_sc : slider := Slider 0.6 3000 10 500.

(** The values a slider can send lie between its ends. *)
Definition en_rango (s : slider) (v : R) : Prop :=
  slider_min s <= v <= slider_max s.

(** ** Notions for the display strings *)







(** ** Notions of the specification *)

(** The order of floats; a NaN is related to nothing. *)
Definition pf_le (a b : pyfloat) : Prop :=
  match a, b with
  | NaN, _ | _, NaN => False
  | Fin x, Fin y => x <= y
  | NInf, _ => True
  | _, PInf => True
  | _, _ => False
  end.

(** A logarithmic axis is given the decimal logarithms of its ends: the end
    itself is the power of ten. *)
Definition pow10 (e : pyfloat) : pyfloat :=
  match e with
  | Fin x => Fin (Rpower 10 x)
  | PInf => PInf
  | NInf => Fin 0
  | NaN => NaN
  end.

(** The coordinate [v] lies within the ends of the axis of range [r]. *)
Definition dentro (r : pyfloat * pyfloat) (v : pyfloat) : Prop :=
  pf_le (pow10 (fst r)) v /\ pf_le v (pow10 (snd r)).

(** [v] is [c] up to [tol]; half a unit of the second decimal when [c] is
    quoted with two decimals. *)
Definition aprox (tol v c : R) : Prop := Rabs (v - c) <= tol.

(** The real number that a binary64 float stands for; an infinity and a
    NaN stand for none. *)
Definition valor_binary64 (f : float) : option R :=
  match Prim2SF f with
  | S754_zero _ => Some 0
  | S754_finite s m e =>
      Some ((if s then -1 else 1) * IZR (Z.pos m) * powerRZ 2 e)
  | S754_infinity _ | S754_nan => None
  end.

(** The largest binary64 float is a little above this number: a Python
    number within it, [int] or [float], converts to a float without
    [OverflowError]. *)
Definition max_float : R := 1.7976931348623157e308.

Definition en_flotante (v : R) : Prop := Rabs v <= max_float.

(** The upper end of an axis as the specification words it:
    [max(default, log10(value) + 0.5)] for a positive value, the default
    otherwise. *)
Definition cota_superior (defecto : R) (v : pyfloat) : pyfloat :=
  match v with
  | Fin a =>
      if Rlt_dec 0 a then Fin (Rmax defecto (ln a / ln 10 + 0.5))
      else Fin defecto
  | PInf => PInf
  | NInf | NaN => Fin defecto
  end.

(** The point to plot as the specification words it: the two parsed
    values, or the fallback point when a string does not parse. *)
Definition punto (float : string -> option pyfloat)
    (Sh_str kc_str : string) : pyfloat * pyfloat :=
  match float Sh_str, float kc_str with
  | Some a, Some b => (a, b)
  | _, _ => (Fin 1.0, Fin 1e-10)
  end.

(** ** Properties of the evaluator *)

Lemma calcular_sherwood_otro (g : string) (Re Sc : R) :
  ~ In g geometrias -> calcular_sherwood g Re Sc true = Real 0.
Proof.
  intros Hg. unfold calcular_sherwood. cbn [negb].
  repeat match goal with
  | |- context [String.eqb g ?s] =>
      destruct (String.eqb_spec g s) as [-> | _];
      [ exfalso; apply Hg; cbn; tauto | ]
  end.
  f_equal; lra.
Qed.

(** C1. With the flag set, [calcular_sherwood] answers the correlation of
    the table for each of the five geometries, at every [Re] and [Sc], and
    [0.0] for every other geometry string; no exception can be raised, the
    answer being a plain number. *)
Theorem calcular_sherwood_tabla (Re Sc : R) :
  calcular_sherwood "placa" Re Sc true
    = (Real 0.037 * Re ** 0.8 * Sc ** (1/3))%num
  /\ calcular_sherwood "tubo" Re Sc true
    = (Real 0.023 * Re ** 0.8 * Sc ** (1/3))%num
  /\ calcular_sherwood "esfera" Re Sc true
    = (Real 2.0 + Real 0.6 * Re ** 0.5 * Sc ** (1/3))%num
  /\ calcular_sherwood "gota" Re Sc true
    = (Real 2.0 + Real 0.6 * Re ** 0.5 * Sc ** (1/3))%num
  /\ calcular_sherwood "lecho empacado" Re Sc true
    = (Real 1.15 * Re ** 0.6 * Sc ** (1/3))%num
  /\ forall g, ~ In g geometrias ->
       calcular_sherwood g Re Sc true = Real 0.0.
Proof.
  repeat split; try reflexivity.
  intros g Hg. rewrite (calcular_sherwood_otro g Re Sc Hg). f_equal; lra.
Qed.

(** C2. With the flag cleared, [calcular_sherwood] answers [0.0] whatever
    the geometry, [Re] and [Sc]. *)
Theorem calcular_sherwood_sin_DAB (g : string) (Re Sc : R) :
  calcular_sherwood g Re Sc false = Real 0.0.
Proof. reflexivity. Qed.
(** ** Properties of the result callback *)

Lemma Rltb_true (a b : R) : a < b -> Rltb a b = true.
Proof. intros H. unfold Rltb. destruct (Rlt_dec a b); [ reflexivity | contradiction ]. Qed.

Lemma Rltb_false (a b : R) : b <= a -> Rltb a b = false.
Proof. intros H. unfold Rltb. destruct (Rlt_dec a b); [ lra | reflexivity ]. Qed.

Lemma Rleb_false (a b : R) : b < a -> Rleb a b = false.
Proof. intros H. unfold Rleb. destruct (Rle_dec a b); [ lra | reflexivity ]. Qed.

Lemma usar_DAB_In (l : list string) :
  existsb (String.eqb "DAB_ON") l = true <-> In "DAB_ON" l.
Proof.
  rewrite existsb_exists. split.
  - intros [s [Hin Heq]]. apply String.eqb_eq in Heq. now subst.
  - intros Hin. exists "DAB_ON". split; [ assumption | apply String.eqb_refl ].
Qed.

Lemma usar_DAB_not_In (l : list string) :
  ~ In "DAB_ON" l -> existsb (String.eqb "DAB_ON") l = false.
Proof.
  intros Hn. destruct (existsb _ l) eqn:E; [ | reflexivity ].
  apply usar_DAB_In in E. contradiction.
Qed.

(** The guard holds exactly when the flag is off, the diffusivity missing
    or not positive. *)
Lemma DAB_valido_None (usar_DAB : bool) (DAB : option R) :
  DAB_valido usar_DAB DAB = None <->
  usar_DAB = false \/ DAB = None \/ exists d, DAB = Some d /\ d <= 0.
Proof.
  unfold DAB_valido. destruct usar_DAB; cbn [negb].
  - destruct DAB as [d|].
    + unfold Rleb. destruct (Rle_dec d 0); split; intros H; try reflexivity.
      * right; right. now exists d.
      * discriminate.
      * destruct H as [H | [H | [d' [H Hd]]]]; try discriminate.
        injection H as <-. contradiction.
    + split; auto.
  - split; auto.
Qed.

Lemma DAB_valido_Some (DAB : R) :
  0 < DAB -> DAB_valido true (Some DAB) = Some DAB.
Proof. intros H. unfold DAB_valido. cbn. now rewrite Rleb_false. Qed.

Lemma Int_part_IZR (z : Z) : Int_part (IZR z) = z.
Proof. symmetry. apply Int_part_spec. lra. Qed.

Lemma round_half_even_IZR (z : Z) : PyStr.round_half_even (IZR z) = z.
Proof.
  unfold PyStr.round_half_even. rewrite Int_part_IZR.
  destruct (Rlt_dec (IZR z - IZR z) (1 / 2)); [ reflexivity | lra ].
Qed.

Lemma format_f_0 (p : nat) : PyStr.format_f p 0 = PyStr.fixed 0 p.
Proof.
  unfold PyStr.format_f, PyStr.sign_of.
  destruct (Rlt_dec 0 0); [ lra | ].
  rewrite Rabs_R0, Rmult_0_l. now rewrite (round_half_even_IZR 0).
Qed.

Lemma format_e_0 (p : nat) : PyStr.format_e p 0 = PyStr.fixed 0 p ++ "e+00".
Proof.
  unfold PyStr.format_e. destruct (Req_dec_T 0 0); [ reflexivity | contradiction ].
Qed.

(** The display strings of a zero Sherwood number and a zero coefficient. *)
Lemma sh_str_0 : PyStr.format_num PyStr.type_f 2 (Real 0.0) = "0.00".
Proof.
  replace 0.0 with 0 by lra. cbn [PyStr.format_num PyStr.format_float].
  now rewrite format_f_0.
Qed.

Lemma kc_str_0 : PyStr.format_num PyStr.type_e 2 (Real 0.0) = "0.00e+00".
Proof.
  replace 0.0 with 0 by lra. cbn [PyStr.format_num PyStr.format_float].
  now rewrite format_e_0.
Qed.

Lemma resultados_guarda (g : string) (Re Sc : R) (checklist_dab : list string)
    (DAB : option R) :
  ~ In "DAB_ON" checklist_dab \/ DAB = None \/ (exists d, DAB = Some d /\ d <= 0) ->
  resultados g Re Sc checklist_dab DAB
    = ret (Locals (Real 0.0) (Real 0.0) (Texto advertencia)).
Proof.
  intros H. unfold resultados.
  replace (DAB_valido _ DAB) with (@None R); [ reflexivity | ].
  symmetry. apply DAB_valido_None.
  destruct H as [H | H]; [ left; now apply usar_DAB_not_In | now right ].
Qed.

(** C3. When the flag is off, or the diffusivity is missing, or it is not
    positive, the callback reaches its formatting step with [Sh = 0.0],
    [kc = 0.0] and the fixed warning as interpretation, and returns the
    display strings of these zeros with that warning, whatever the
    geometry, [Re] and [Sc]. *)
Theorem guarda_fuerza_ceros (g : string) (Re Sc : R)
    (checklist_dab : list string) (DAB : option R) :
  ~ In "DAB_ON" checklist_dab \/ DAB = None \/ (exists d, DAB = Some d /\ d <= 0) ->
  resultados g Re Sc checklist_dab DAB
    = ret (Locals (Real 0.0) (Real 0.0) (Texto advertencia))
  /\ actualizar_resultados g Re Sc checklist_dab DAB
    = ret ("0.00", "0.00e+00", Texto advertencia).
Proof.
  intros H. pose proof (resultados_guarda g Re Sc checklist_dab DAB H) as E.
  split; [ exact E | ].
  unfold actualizar_resultados. rewrite E. cbn [bind ret Sh kc interpretacion].
  now rewrite sh_str_0, kc_str_0.
Qed.

Lemma guarda_fuerza_ceros_witness :
  actualizar_resultados "esfera" 1000 500 ["DAB_ON"] (Some 0)
    = ret ("0.00", "0.00e+00", Texto advertencia).
Proof.
  apply (guarda_fuerza_ceros "esfera" 1000 500 ["DAB_ON"] (Some 0)).
  right; right. exists 0. split; [ reflexivity | lra ].
Defined.

(** *** When the guard passes *)

Lemma float_pow_pos (x y : R) : 0 < x -> float_pow x y = Real (Rpower x y).
Proof.
  intros H. unfold float_pow. destruct (Rlt_dec 0 x); [ reflexivity | contradiction ].
Qed.

Lemma float_pow_0 (y : R) : float_pow 0 y = Real 0.
Proof.
  unfold float_pow. destruct (Rlt_dec 0 0); [ lra | ].
  destruct (Rlt_dec 0 0); [ lra | reflexivity ].
Qed.

Lemma float_pow_nonneg (x y : R) :
  0 <= x -> exists r, float_pow x y = Real r /\ 0 <= r.
Proof.
  intros [H | <-].
  - exists (Rpower x y). split; [ now apply float_pow_pos | ].
    left. apply exp_pos.
  - exists 0. split; [ apply float_pow_0 | lra ].
Qed.

(** On a non-negative [Re] and [Sc] the Sherwood number is a non-negative
    float. *)
Lemma calcular_sherwood_real (g : string) (Re Sc : R) (usar_DAB : bool) :
  0 <= Re -> 0 <= Sc ->
  exists sh, calcular_sherwood g Re Sc usar_DAB = Real sh /\ 0 <= sh.
Proof.
  intros HRe HSc. unfold calcular_sherwood.
  destruct (float_pow_nonneg Re 0.8 HRe) as [a [-> Ha]].
  destruct (float_pow_nonneg Re 0.5 HRe) as [b [-> Hb]].
  destruct (float_pow_nonneg Re 0.6 HRe) as [c [-> Hc]].
  destruct (float_pow_nonneg Sc (1/3) HSc) as [s [-> Hs]].
  assert (0 <= a * s) by now apply Rmult_le_pos.
  assert (0 <= b * s) by now apply Rmult_le_pos.
  assert (0 <= c * s) by now apply Rmult_le_pos.
  destruct (negb usar_DAB); [ exists 0.0; split; [ reflexivity | lra ] | ].
  repeat match goal with
  | |- context [if ?b then _ else _] => destruct b
  end; cbn [num_mul num_add]; eexists; (split; [ reflexivity | lra ]).
Qed.

(** The locals of the callback when the guard passes and the Sherwood
    number is a float. *)
Lemma resultados_real (g : string) (Re Sc : R) (checklist_dab : list string)
    (d sh : R) :
  In "DAB_ON" checklist_dab -> 0 < d ->
  calcular_sherwood g Re Sc true = Real sh ->
  resultados g Re Sc checklist_dab (Some d)
    = ret (Locals (Real sh) (Real (sh * (d / L_caracteristica)))
             (Ul [ if Rgtb Re 5000 then re_alto Re
                   else if Rltb Re 500 then re_bajo Re
                   else re_moderado Re;
                   if Rgtb Sc 1000 then sc_alto Sc
                   else if Rltb Sc 1 then sc_bajo Sc
                   else sc_moderado Sc;
                   combinacion
                     (if Rgtb sh 1000 && Rgtb Re 5000 then conveccion_forzada
                      else if Rltb sh 100 && Rgtb Sc 1000 then difusion_lenta
                      else combinada) g ])).
Proof.
  intros Hin Hd Hsh. unfold resultados.
  apply usar_DAB_In in Hin. rewrite Hin, (DAB_valido_Some d Hd), Hsh.
  cbn [num_gt num_lt num_mul bind ret app].
  destruct (Rgtb sh 1000 && Rgtb Re 5000); [ reflexivity | ].
  cbn [bind]. destruct (Rltb sh 100 && Rgtb Sc 1000); reflexivity.
Qed.

(** A complex Sherwood number cannot be ordered: the callback raises. *)
Lemma resultados_complex (g : string) (Re Sc : R)
    (checklist_dab : list string) (d re im : R) :
  In "DAB_ON" checklist_dab -> 0 < d ->
  calcular_sherwood g Re Sc true = Complex re im ->
  resultados g Re Sc checklist_dab (Some d) = raise TypeError.
Proof.
  intros Hin Hd Hsh. unfold resultados.
  apply usar_DAB_In in Hin. now rewrite Hin, (DAB_valido_Some d Hd), Hsh.
Qed.

(** A sphere at [Re = (490/3)^2] and [Sc = 1] has Sherwood number 100. *)
Lemma sherwood_100 :
  calcular_sherwood "esfera" ((490 / 3) ^ 2) 1 true = Real 100.
Proof.
  unfold calcular_sherwood. cbn [negb String.eqb Ascii.eqb Bool.eqb].
  rewrite !float_pow_pos by lra. cbn [num_mul num_add]. f_equal.
  replace 0.5 with (/ 2) by lra.
  rewrite Rpower_sqrt by lra.
  replace ((490 / 3) ^ 2) with (Rsqr (490 / 3)) by (unfold Rsqr; ring).
  rewrite sqrt_Rsqr by lra.
  unfold Rpower. rewrite ln_1, Rmult_0_r, exp_0. lra.
Qed.

(** *** What the callback raises *)


Lemma float_pow_neg (x y : R) :
  x < 0 -> exists re im, float_pow x y = Complex re im.
Proof.
  intros H. unfold float_pow.
  destruct (Rlt_dec 0 x); [ lra | ].
  destruct (Rlt_dec x 0); [ | contradiction ].
  eexists. eexists. reflexivity.
Qed.

(** A negative [Re] makes the Sherwood number of a geometry of the
    dropdown complex, and the callback, when the guard passes, raise on
    the comparison of that number. *)
Lemma actualizar_resultados_Re_negativo (g : string) (Re Sc : R)
    (checklist_dab : list string) (d : R) :
  In g geometrias -> Re < 0 -> 0 <= Sc ->
  In "DAB_ON" checklist_dab -> 0 < d ->
  actualizar_resultados g Re Sc checklist_dab (Some d) = raise TypeError.
Proof.
  intros Hg HRe HSc Hin Hd.
  assert (Hsh : exists re im, calcular_sherwood g Re Sc true = Complex re im).
  { destruct (float_pow_neg Re 0.8 HRe) as [a1 [b1 E1]].
    destruct (float_pow_neg Re 0.5 HRe) as [a2 [b2 E2]].
    destruct (float_pow_neg Re 0.6 HRe) as [a3 [b3 E3]].
    destruct (float_pow_nonneg Sc (1/3) HSc) as [s [Es _]].
    unfold calcular_sherwood. rewrite E1, E2, E3, Es.
    cbn in Hg.
    destruct Hg as [<- | [<- | [<- | [<- | [<- | []]]]]];
      cbn [negb String.eqb Ascii.eqb Bool.eqb num_mul num_add];
      eexists; eexists; reflexivity. }
  destruct Hsh as [re [im Hsh]].
  unfold actualizar_resultados.
  now rewrite (resultados_complex g Re Sc checklist_dab d re im Hin Hd Hsh).
Qed.

(** *** The interpretation *)

(** The statements of a rule are pairwise different texts, so that a
    statement tells which branch produced it. *)
Lemma enunciados_Re_distintos (Re : R) :
  re_alto Re <> re_bajo Re /\ re_alto Re <> re_moderado Re
  /\ re_bajo Re <> re_moderado Re.
Proof. repeat split; unfold re_alto, re_bajo, re_moderado; cbn; discriminate. Qed.

Lemma enunciados_Sc_distintos (Sc : R) :
  sc_alto Sc <> sc_bajo Sc /\ sc_alto Sc <> sc_moderado Sc
  /\ sc_bajo Sc <> sc_moderado Sc.
Proof. repeat split; unfold sc_alto, sc_bajo, sc_moderado; cbn; discriminate. Qed.

Lemma enunciados_comb_distintos (g : string) :
  combinacion conveccion_forzada g <> combinacion difusion_lenta g
  /\ combinacion conveccion_forzada g <> combinacion combinada g
  /\ combinacion difusion_lenta g <> combinacion combinada g.
Proof. repeat split; unfold combinacion; cbn; discriminate. Qed.

Lemma Rgtb_true (a b : R) : b < a -> Rgtb a b = true.
Proof. apply Rltb_true. Qed.

Lemma Rgtb_false (a b : R) : a <= b -> Rgtb a b = false.
Proof. apply Rltb_false. Qed.



(** ** The sphere at [Re = 1000], [Sc = 500] *)

Lemma Rpower_cube_root (a : R) : 0 < a -> Rpower (a ^ 3) (1/3) = a.
Proof.
  intros Ha. rewrite <- (Rpower_pow 3 a Ha), Rpower_mult.
  replace (INR 3 * (1 / 3)) with 1 by (cbn; lra).
  now apply Rpower_1.
Qed.

Lemma Rpower_square_root (a : R) : 0 < a -> Rpower (a ^ 2) 0.5 = a.
Proof.
  intros Ha. rewrite <- (Rpower_pow 2 a Ha), Rpower_mult.
  replace (INR 2 * 0.5) with 1 by (cbn; lra).
  now apply Rpower_1.
Qed.

(** A root lies between two numbers whose powers enclose the radicand. *)
Lemma cube_root_between (a b x : R) :
  0 < a -> a ^ 3 < x < b ^ 3 -> 0 < b -> a < Rpower x (1/3) < b.
Proof.
  intros Ha [H1 H2] Hb.
  assert (0 < a ^ 3) by (apply pow_lt; assumption).
  split.
  - rewrite <- (Rpower_cube_root a Ha) at 1. apply Rlt_Rpower_l; lra.
  - rewrite <- (Rpower_cube_root b Hb) at 1. apply Rlt_Rpower_l; lra.
Qed.

Lemma square_root_between (a b x : R) :
  0 < a -> a ^ 2 < x < b ^ 2 -> 0 < b -> a < Rpower x 0.5 < b.
Proof.
  intros Ha [H1 H2] Hb.
  assert (0 < a ^ 2) by (apply pow_lt; assumption).
  split.
  - rewrite <- (Rpower_square_root a Ha) at 1. apply Rlt_Rpower_l; lra.
  - rewrite <- (Rpower_square_root b Hb) at 1. apply Rlt_Rpower_l; lra.
Qed.

Lemma raiz_1000 : 31.62277 < Rpower 1000 0.5 < 31.62278.
Proof. apply square_root_between; lra. Qed.

Lemma raiz_cubica_500 : 7.93700 < Rpower 500 (1/3) < 7.93701.
Proof. apply cube_root_between; lra. Qed.

Lemma sherwood_esfera_1000_500 :
  calcular_sherwood "esfera" 1000 500 true
    = Real (2.0 + 0.6 * Rpower 1000 0.5 * Rpower 500 (1/3)).
Proof.
  unfold calcular_sherwood. cbn [negb String.eqb Ascii.eqb Bool.eqb].
  rewrite !float_pow_pos by lra. reflexivity.
Qed.

Lemma sherwood_esfera_cotas :
  152.5939 < 2.0 + 0.6 * Rpower 1000 0.5 * Rpower 500 (1/3) < 152.5942.
Proof.
  pose proof raiz_1000 as [H1 H2]. pose proof raiz_cubica_500 as [H3 H4].
  set (a := Rpower 1000 0.5) in *. set (b := Rpower 500 (1/3)) in *.
  split; nra.
Qed.

Lemma round_half_even_below (x : R) (z : Z) :
  IZR z <= x < IZR z + 1/2 -> PyStr.round_half_even x = z.
Proof.
  intros H. unfold PyStr.round_half_even.
  replace (Int_part x) with z by (apply Int_part_spec; lra).
  destruct (Rlt_dec (x - IZR z) (1 / 2)); [ reflexivity | lra ].
Qed.

(** C6, as the code has it.  For the sphere at [Re = 1000] and [Sc = 500]
    with the diffusivity enabled, [calcular_sherwood] answers
    [2.0 + 0.6 * 1000^0.5 * 500^(1/3)]; this value lies between 152.5939
    and 152.5942, so it is approximately 152.59, which is also its display
    string. *)
Theorem sherwood_esfera_aprox :
  exists v,
    calcular_sherwood "esfera" 1000 500 true = Real v
    /\ v = 2.0 + 0.6 * Rpower 1000 0.5 * Rpower 500 (1/3)
    /\ 152.5939 < v < 152.5942
    /\ aprox 0.005 v 152.59
    /\ PyStr.format_num PyStr.type_f 2 (Real v) = "152.59".
Proof.
  eexists. split; [ apply sherwood_esfera_1000_500 | ].
  split; [ reflexivity | ].
  pose proof sherwood_esfera_cotas as H.
  set (v := 2.0 + 0.6 * Rpower 1000 0.5 * Rpower 500 (1/3)) in *.
  split; [ exact H | ]. split.
  - unfold aprox. apply Rabs_le. lra.
  - cbn [PyStr.format_num PyStr.format_float].
    unfold PyStr.format_f, PyStr.sign_of.
    destruct (Rlt_dec v 0); [ lra | ].
    rewrite Rabs_pos_eq by lra.
    rewrite (round_half_even_below (v * 10 ^ 2) 15259) by lra.
    reflexivity.
Qed.

(** The value is not the 163.33 of the specification: it is more than ten
    units away from it. *)
Lemma sherwood_esfera_no_163 :
  ~ (exists v,
       calcular_sherwood "esfera" 1000 500 true = Real v
       /\ v = 2.0 + 0.6 * Rpower 1000 0.5 * Rpower 500 (1/3)
       /\ aprox 10 v 163.33).
Proof.
  intros [v [_ [Hv Ha]]]. pose proof sherwood_esfera_cotas as H.
  rewrite <- Hv in H. unfold aprox, Rabs in Ha.
  destruct (Rcase_abs (v - 163.33)); lra.
Qed.

(** ** Properties of the plot callback *)

Lemma ln_10_pos : 0 < ln 10.
Proof. rewrite <- ln_1. apply ln_increasing; lra. Qed.

(** Closes an equation between decimal constants and powers of ten with
    literal integer exponents. *)
Ltac potencias_de_diez :=
  cbv [powerRZ Pos.to_nat Pos.iter_op Init.Nat.add pow]; lra.

Lemma log10_powerRZ (k : Z) : ln (powerRZ 10 k) / ln 10 = IZR k.
Proof.
  pose proof ln_10_pos.
  rewrite powerRZ_Rpower, ln_Rpower by lra. field. lra.
Qed.


(** The upper end computed by the callback is the one of the
    specification. *)
Lemma cota_superior_codigo (defecto : R) (v : pyfloat) :
  (if pf_gt v (Fin 0) then py_max (Fin defecto) (pf_add (log10 v) 0.5)
   else Fin defecto) = cota_superior defecto v.
Proof.
  destruct v as [a | | |]; cbn [pf_gt cota_superior]; try reflexivity.
  unfold Rgtb, Rltb. destruct (Rlt_dec 0 a) as [Ha | Ha]; [ | reflexivity ].
  cbn [log10]. destruct (Rlt_dec 0 a); [ | contradiction ].
  cbn [pf_add]. unfold py_max. cbn [pf_gt]. unfold Rgtb, Rltb, Rmax.
  destruct (Rlt_dec defecto (ln a / ln 10 + 0.5));
    destruct (Rle_dec defecto (ln a / ln 10 + 0.5));
    try reflexivity; try (f_equal; lra); lra.
Qed.

(** The callback always returns: the figure of the point of the
    specification. *)
Lemma actualizar_grafica_con_ret (float : string -> option pyfloat)
    (s1 s2 : string) :
  actualizar_grafica_con float s1 s2
    = ret (let '(a, b) := punto float s1 s2 in
           Figure a b
             ("Sh: " ++ format_pyfloat PyStr.type_f 2 a ++ "<br>kc: " ++
              format_pyfloat PyStr.type_e 2 b)
             (Fin 0.0, cota_superior 4.3 a)
             (Fin (-12.0), cota_superior (-3.0) b)).
Proof.
  unfold actualizar_grafica_con, punto, to_float.
  destruct (float s1) as [a |]; [ destruct (float s2) as [b |] | ];
    cbn [bind ret raise try_except_ValueError];
    rewrite <- !cota_superior_codigo; reflexivity.
Qed.

Lemma punto_fallo (float : string -> option pyfloat) (s1 s2 : string) :
  float s1 = None \/ float s2 = None ->
  punto float s1 s2 = (Fin 1.0, Fin 1e-10).
Proof.
  unfold punto. intros [-> | ->]; [ reflexivity | ].
  destruct (float s1); reflexivity.
Qed.

(** C7. Whatever the two display strings, and whatever [float] makes of
    them, the plot callback returns a figure and raises nothing; when one
    of the strings does not parse, the plotted point is the fallback
    point [(1.0, 1e-10)]. *)
Theorem grafica_nunca_falla (float : string -> option pyfloat)
    (Sh_str kc_str : string) :
  (exists fig, actualizar_grafica_con float Sh_str kc_str = ret fig)
  /\ (float Sh_str = None \/ float kc_str = None ->
      exists fig,
        actualizar_grafica_con float Sh_str kc_str = ret fig
        /\ x fig = Fin 1.0 /\ y fig = Fin 1e-10).
Proof.
  split.
  - eexists. apply actualizar_grafica_con_ret.
  - intros H. eexists. split; [ apply actualizar_grafica_con_ret | ].
    rewrite (punto_fallo float Sh_str kc_str H). split; reflexivity.
Qed.

Lemma grafica_nunca_falla_witness :
  exists fig,
    actualizar_grafica "Sh" "1.00e-07" = ret fig
    /\ x fig = Fin 1.0 /\ y fig = Fin 1e-10.
Proof.
  apply (grafica_nunca_falla float_of_string "Sh" "1.00e-07").
  left. reflexivity.
Defined.

(** *** The axis ranges *)

Lemma log10_monotono (a b : R) :
  0 < a -> a <= b -> ln a / ln 10 <= ln b / ln 10.
Proof.
  intros Ha [Hab | <-]; [ | lra ].
  pose proof ln_10_pos. pose proof (ln_increasing a b Ha Hab).
  apply Rmult_le_compat_r; [ left; now apply Rinv_0_lt_compat | lra ].
Qed.

(** The upper end never goes below the default. *)
Lemma cota_superior_defecto (defecto : R) (v : pyfloat) :
  pf_le (Fin defecto) (cota_superior defecto v).
Proof.
  destruct v as [a | | |]; cbn; try lra; try exact I.
  destruct (Rlt_dec 0 a); cbn; [ apply Rmax_l | lra ].
Qed.

(** The upper end grows with the value. *)
Lemma cota_superior_monotona (defecto : R) (v w : pyfloat) :
  pf_le v w -> pf_le (cota_superior defecto v) (cota_superior defecto w).
Proof.
  destruct v as [a | | |], w as [b | | |]; cbn; intros H;
    try contradiction; try exact I; try lra.
  - destruct (Rlt_dec 0 a) as [Ha | Ha], (Rlt_dec 0 b) as [Hb | Hb]; cbn.
    + apply Rle_max_compat_l.
      pose proof (log10_monotono a b Ha H). lra.
    + lra.
    + apply Rmax_l.
    + lra.
  - destruct (Rlt_dec 0 a); exact I.
  - destruct (Rlt_dec 0 b); cbn; [ apply Rmax_l | lra ].
Qed.

Lemma Rpower_10_0 : Rpower 10 0.0 = 1.
Proof. replace 0.0 with 0 by lra. apply Rpower_O. lra. Qed.

Lemma Rpower_10_m12 : Rpower 10 (-12.0) = 1e-12.
Proof.
  replace (-12.0) with (- INR 12) by (cbn; lra).
  rewrite Rpower_Ropp, Rpower_pow by lra. lra.
Qed.

(** The display strings of [1e5], [1e6], [1e-4] and [1e-3]. *)
Lemma float_of_string_potencias :
  float_of_string "100000.00" = Some (Fin 100000)
  /\ float_of_string "1000000.00" = Some (Fin 1000000)
  /\ float_of_string "1.00e-04" = Some (Fin 1e-4)
  /\ float_of_string "1.00e-03" = Some (Fin 1e-3).
Proof.
  unfold float_of_string.
  replace (PyStr.parse_literal "100000.00")
    with (Some (PyStr.Decimal false 10000000 (-2))) by reflexivity.
  replace (PyStr.parse_literal "1000000.00")
    with (Some (PyStr.Decimal false 100000000 (-2))) by reflexivity.
  replace (PyStr.parse_literal "1.00e-04")
    with (Some (PyStr.Decimal false 100 (-6))) by reflexivity.
  replace (PyStr.parse_literal "1.00e-03")
    with (Some (PyStr.Decimal false 100 (-5))) by reflexivity.
  cbn [option_map value_of Z.of_N].
  repeat split; do 2 f_equal; potencias_de_diez.
Qed.

(** The decimal logarithm of a power of ten given by its digits. *)
Lemma log10_potencia (v : R) (k : Z) :
  v = powerRZ 10 k -> ln v / ln 10 = IZR k.
Proof. intros ->. apply log10_powerRZ. Qed.

(** C8. In the plot step the point is the pair of the parsed display
    strings, or the fallback point when one does not parse; the lower ends
    of the two ranges are the fixed [10^0] and [10^-12]; the upper end of
    each axis is [max(default, log10(value) + 0.5)] whenever the coordinate
    is positive, with the defaults [4.3] and [-3] as exponents of ten, and
    the default otherwise; it is never below its default, and between two
    calls it grows with the value parsed, never the other way. *)
Theorem rango_expansion (float : string -> option pyfloat) :
  (forall Sh_str kc_str, exists fig,
     actualizar_grafica_con float Sh_str kc_str = ret fig
     /\ (forall a b, float Sh_str = Some a -> float kc_str = Some b ->
           x fig = a /\ y fig = b)
     /\ (float Sh_str = None \/ float kc_str = None ->
           x fig = Fin 1.0 /\ y fig = Fin 1e-10)
     /\ fst (xaxis_range fig) = Fin 0.0
     /\ pow10 (fst (xaxis_range fig)) = Fin 1
     /\ fst (yaxis_range fig) = Fin (-12.0)
     /\ pow10 (fst (yaxis_range fig)) = Fin 1e-12
     /\ (forall a, x fig = Fin a -> 0 < a ->
           snd (xaxis_range fig) = Fin (Rmax 4.3 (ln a / ln 10 + 0.5)))
     /\ (forall b, y fig = Fin b -> 0 < b ->
           snd (yaxis_range fig) = Fin (Rmax (-3.0) (ln b / ln 10 + 0.5)))
     /\ (forall a, x fig = Fin a -> a <= 0 ->
           snd (xaxis_range fig) = Fin 4.3)
     /\ (forall b, y fig = Fin b -> b <= 0 ->
           snd (yaxis_range fig) = Fin (-3.0))
     /\ snd (xaxis_range fig) = cota_superior 4.3 (x fig)
     /\ snd (yaxis_range fig) = cota_superior (-3.0) (y fig)
     /\ pf_le (Fin 4.3) (snd (xaxis_range fig))
     /\ pf_le (Fin (-3.0)) (snd (yaxis_range fig)))
  /\ (forall Sh_str kc_str Sh_str' kc_str' a b a' b' fig fig',
        float Sh_str = Some a -> float kc_str = Some b ->
        float Sh_str' = Some a' -> float kc_str' = Some b' ->
        actualizar_grafica_con float Sh_str kc_str = ret fig ->
        actualizar_grafica_con float Sh_str' kc_str' = ret fig' ->
        (pf_le a a' ->
         pf_le (snd (xaxis_range fig)) (snd (xaxis_range fig')))
        /\ (pf_le b b' ->
            pf_le (snd (yaxis_range fig)) (snd (yaxis_range fig'))))
  /\ (forall Sh_str kc_str Sh_str' kc_str' fig fig',
        actualizar_grafica_con float Sh_str kc_str = ret fig ->
        actualizar_grafica_con float Sh_str' kc_str' = ret fig' ->
        (pf_le (x fig) (x fig') ->
         pf_le (snd (xaxis_range fig)) (snd (xaxis_range fig')))
        /\ (pf_le (y fig) (y fig') ->
            pf_le (snd (yaxis_range fig)) (snd (yaxis_range fig')))).
Proof.
  split; [ | split ].
  - intros s1 s2. eexists. split; [ apply actualizar_grafica_con_ret | ].
    split.
    { intros a b Ha Hb. unfold punto. rewrite Ha, Hb. split; reflexivity. }
    split.
    { intros H. rewrite (punto_fallo float s1 s2 H). split; reflexivity. }
    destruct (punto float s1 s2) as [a b].
    cbn [x y xaxis_range yaxis_range fst snd pow10].
    rewrite Rpower_10_0, Rpower_10_m12.
    repeat split; try apply cota_superior_defecto.
    + intros a' -> Ha. cbn. destruct (Rlt_dec 0 a'); [ reflexivity | contradiction ].
    + intros b' -> Hb. cbn. destruct (Rlt_dec 0 b'); [ reflexivity | contradiction ].
    + intros a' -> Ha. cbn. destruct (Rlt_dec 0 a'); [ lra | reflexivity ].
    + intros b' -> Hb. cbn. destruct (Rlt_dec 0 b'); [ lra | reflexivity ].
  - intros s1 s2 s1' s2' a b a' b' fig fig' Ha Hb Ha' Hb' H H'.
    rewrite actualizar_grafica_con_ret in H, H'.
    injection H as <-. injection H' as <-.
    unfold punto. rewrite Ha, Hb, Ha', Hb'.
    cbn [x y xaxis_range yaxis_range snd].
    split; apply cota_superior_monotona.
  - intros s1 s2 s1' s2' fig fig' H H'.
    rewrite actualizar_grafica_con_ret in H, H'.
    injection H as <-. injection H' as <-.
    destruct (punto float s1 s2) as [a b], (punto float s1' s2') as [a' b'].
    cbn [x y xaxis_range yaxis_range snd].
    split; apply cota_superior_monotona.
Qed.

(** Two calls, [Sh = 1e5] then [Sh = 1e6]: the points are those of the
    strings, the upper end of the x axis is [5.5], then [6.5], and the
    upper end of the y axis stays [-3] for [kc = 1e-4]. *)
Lemma rango_expansion_witness :
  exists fig fig',
    actualizar_grafica "100000.00" "1.00e-04" = ret fig
    /\ actualizar_grafica "1000000.00" "1.00e-03" = ret fig'
    /\ x fig = Fin 100000 /\ y fig = Fin 1e-4
    /\ x fig' = Fin 1000000 /\ y fig' = Fin 1e-3
    /\ snd (xaxis_range fig) = Fin 5.5
    /\ snd (xaxis_range fig') = Fin 6.5
    /\ snd (yaxis_range fig) = Fin (-3.0)
    /\ pf_le (snd (xaxis_range fig)) (snd (xaxis_range fig')).
Proof.
  destruct float_of_string_potencias as [E5 [E6 [E4 E3]]].
  destruct (rango_expansion float_of_string) as [Hex [Hmono _]].
  destruct (Hex "100000.00" "1.00e-04")
    as [fig [H [Hp [_ [_ [_ [_ [_ [Hx [Hy _]]]]]]]]]].
  destruct (Hex "1000000.00" "1.00e-03")
    as [fig' [H' [Hp' [_ [_ [_ [_ [_ [Hx' _]]]]]]]]].
  destruct (Hp _ _ E5 E4) as [X Y]. destruct (Hp' _ _ E6 E3) as [X' Y'].
  pose proof (Hx _ X ltac:(lra)) as U.
  pose proof (Hx' _ X' ltac:(lra)) as U'.
  pose proof (Hy _ Y ltac:(lra)) as V.
  rewrite (log10_potencia 100000 5) in U by potencias_de_diez.
  rewrite (log10_potencia 1000000 6) in U' by potencias_de_diez.
  rewrite (log10_potencia 1e-4 (-4)) in V by potencias_de_diez.
  rewrite Rmax_right in U by lra. rewrite Rmax_right in U' by lra.
  rewrite Rmax_left in V by lra.
  replace (5 + 0.5) with 5.5 in U by lra.
  replace (6 + 0.5) with 6.5 in U' by lra.
  exists fig, fig'.
  split; [ exact H | ]. split; [ exact H' | ].
  split; [ exact X | ]. split; [ exact Y | ].
  split; [ exact X' | ]. split; [ exact Y' | ].
  split; [ exact U | ]. split; [ exact U' | ]. split; [ exact V | ].
  destruct (Hmono _ _ _ _ _ _ _ _ fig fig' E5 E4 E6 E3 H H') as [Hm _].
  apply Hm. cbn. lra.
Defined.

(** *** The point and the ranges *)

Lemma float_of_string_0_00 : float_of_string "0.00" = Some (Fin 0).
Proof.
  unfold float_of_string.
  replace (PyStr.parse_literal "0.00")
    with (Some (PyStr.Decimal false 0 (-2))) by reflexivity.
  cbn [option_map value_of Z.of_N]. now rewrite Rmult_0_l.
Qed.

Lemma float_of_string_0_00e00 : float_of_string "0.00e+00" = Some (Fin 0).
Proof.
  unfold float_of_string.
  replace (PyStr.parse_literal "0.00e+00")
    with (Some (PyStr.Decimal false 0 (-2))) by reflexivity.
  cbn [option_map value_of Z.of_N]. now rewrite Rmult_0_l.
Qed.

Lemma cota_superior_0 (defecto : R) : cota_superior defecto (Fin 0) = Fin defecto.
Proof. cbn. destruct (Rlt_dec 0 0); [ lra | reflexivity ]. Qed.

(** The figure of the display strings of the zeros. *)
Lemma grafica_ceros :
  actualizar_grafica "0.00" "0.00e+00"
    = ret (Figure (Fin 0) (Fin 0) "Sh: 0.00<br>kc: 0.00e+00"
             (Fin 0.0, Fin 4.3) (Fin (-12.0), Fin (-3.0))).
Proof.
  unfold actualizar_grafica. rewrite actualizar_grafica_con_ret.
  unfold punto. rewrite float_of_string_0_00, float_of_string_0_00e00.
  rewrite !cota_superior_0. cbn [format_pyfloat PyStr.format_float].
  now rewrite format_f_0, format_e_0.
Qed.

(** C9, at the display strings of the zeros.  With the guard failed (here
    an empty diffusivity field) the result callback displays ["0.00"] and
    ["0.00e+00"]; both parse, so the plot callback does not take its
    reference point [(1.0, 1e-10)]: it plots [(0.0, 0.0)] with the default
    ranges [[0.0, 4.3]] and [[-12.0, -3.0]], and the point lies outside the
    range of both axes, below [10^0] and below [10^-12]. *)
Theorem punto_fuera_de_rango :
  actualizar_resultados "esfera" 1000 500 ["DAB_ON"] None
    = ret ("0.00", "0.00e+00", Texto advertencia)
  /\ float_of_string "0.00" = Some (Fin 0)
  /\ float_of_string "0.00e+00" = Some (Fin 0)
  /\ exists fig,
       actualizar_grafica "0.00" "0.00e+00" = ret fig
       /\ x fig = Fin 0 /\ y fig = Fin 0
       /\ (x fig, y fig) <> (Fin 1.0, Fin 1e-10)
       /\ xaxis_range fig = (Fin 0.0, Fin 4.3)
       /\ yaxis_range fig = (Fin (-12.0), Fin (-3.0))
       /\ pow10 (fst (xaxis_range fig)) = Fin 1
       /\ pow10 (fst (yaxis_range fig)) = Fin 1e-12
       /\ ~ dentro (xaxis_range fig) (x fig)
       /\ ~ dentro (yaxis_range fig) (y fig).
Proof.
  split.
  { unfold actualizar_resultados.
    rewrite (resultados_guarda "esfera" 1000 500 ["DAB_ON"] None)
      by (right; now left).
    cbn [bind ret Sh kc interpretacion]. now rewrite sh_str_0, kc_str_0. }
  split; [ apply float_of_string_0_00 | ].
  split; [ apply float_of_string_0_00e00 | ].
  eexists. split; [ apply grafica_ceros | ].
  unfold dentro. cbn [x y xaxis_range yaxis_range fst snd pow10 pf_le].
  rewrite Rpower_10_0, Rpower_10_m12.
  split; [ reflexivity | ]. split; [ reflexivity | ].
  split; [ intros E; injection E as E _; lra | ].
  split; [ reflexivity | ]. split; [ reflexivity | ].
  split; [ reflexivity | ]. split; [ reflexivity | ].
  split; lra.
Qed.

(** C10. When the guard fails, the result callback displays ["0.00"] and
    ["0.00e+00"]; both parse, to [0.0], so the plot callback plots
    [(0.0, 0.0)], not the fallback point, and leaves the two upper ends at
    their defaults. *)
Theorem ceros_en_la_grafica (g : string) (Re Sc : R)
    (checklist_dab : list string) (DAB : option R) :
  ~ In "DAB_ON" checklist_dab \/ DAB = None \/ (exists d, DAB = Some d /\ d <= 0) ->
  exists sh_str kc_str i fig,
    actualizar_resultados g Re Sc checklist_dab DAB = ret (sh_str, kc_str, i)
    /\ sh_str = "0.00" /\ kc_str = "0.00e+00"
    /\ float_of_string sh_str = Some (Fin 0)
    /\ float_of_string kc_str = Some (Fin 0)
    /\ actualizar_grafica sh_str kc_str = ret fig
    /\ x fig = Fin 0 /\ y fig = Fin 0
    /\ (x fig, y fig) <> (Fin 1.0, Fin 1e-10)
    /\ snd (xaxis_range fig) = Fin 4.3
    /\ snd (yaxis_range fig) = Fin (-3.0).
Proof.
  intros H. unfold actualizar_resultados.
  rewrite (resultados_guarda g Re Sc checklist_dab DAB H).
  cbn [bind ret Sh kc interpretacion]. rewrite sh_str_0, kc_str_0.
  do 4 eexists. split; [ reflexivity | ].
  split; [ reflexivity | ]. split; [ reflexivity | ].
  split; [ apply float_of_string_0_00 | ].
  split; [ apply float_of_string_0_00e00 | ].
  split; [ apply grafica_ceros | ].
  cbn [x y xaxis_range yaxis_range snd]. repeat split.
  intros E. injection E as E _. lra.
Qed.

Lemma ceros_en_la_grafica_witness :
  exists fig,
    actualizar_grafica "0.00" "0.00e+00" = ret fig
    /\ x fig = Fin 0 /\ y fig = Fin 0.
Proof.
  assert (Hg : ~ In "DAB_ON" [] \/ @None R = None
               \/ (exists d, @None R = Some d /\ d <= 0)) by (right; now left).
  destruct (ceros_en_la_grafica "tubo" 100 0.6 [] None Hg)
    as [s1 [s2 [i [fig [_ [-> [-> [_ [_ [Hf [Hx [Hy _]]]]]]]]]]]].
  exists fig. auto.
Defined.

(** ** The builtins on sample values

    The values below are those CPython gives. *)

Example capitalize_geometrias :
  map PyStr.capitalize geometrias
    = ["Placa"; "Tubo"; "Esfera"; "Gota"; "Lecho empacado"].
Proof. reflexivity. Qed.

Example capitalize_mixto : PyStr.capitalize "lECHO Empacado" = "Lecho empacado".
Proof. reflexivity. Qed.

(** Strings that [float()] accepts. *)
Example parse_literal_acepta :
  map PyStr.parse_literal
    ["152.59"; "1.53e-07"; " 1 "; "1."; ".5"; "+.5"; "1_0"; "1.e5";
     "-.5e-0_1"; "1E3"; "InFiNiTy"; "-inf"; "-nan"]
  = map Some
    [PyStr.Decimal false 15259 (-2); PyStr.Decimal false 153 (-9);
     PyStr.Decimal false 1 0; PyStr.Decimal false 1 0;
     PyStr.Decimal false 5 (-1); PyStr.Decimal false 5 (-1);
     PyStr.Decimal false 10 0; PyStr.Decimal false 1 5;
     PyStr.Decimal true 5 (-2); PyStr.Decimal false 1 3;
     PyStr.Infinity false; PyStr.Infinity true; PyStr.NotANumber].
Proof. reflexivity. Qed.

(** Strings on which [float()] raises [ValueError]. *)
Example parse_literal_rechaza :
  forallb (fun s => match PyStr.parse_literal s with None => true | Some _ => false end)
    [""; "Sh"; "."; "-"; "1e"; "1e+"; "e5"; ".e5"; "1e5."; "1 2"; "--1";
     "+-1"; "0x10"; "_1"; "1_"; "1__0"; "1_.5"; "1._5"; "1e_5"; "1_e5";
     "infinit"; "nan_"; "i_nf"; "1,5"]
  = true.
Proof. reflexivity. Qed.

(** Ties go to the even neighbour: [f"{0.5:.0f}"] is ["0"] and
    [f"{1.5:.0f}"] is ["2"]. *)
Example format_f_empates :
  PyStr.format_f 0 0.5 = "0" /\ PyStr.format_f 0 1.5 = "2".
Proof.
  unfold PyStr.format_f, PyStr.sign_of, PyStr.round_half_even. split.
  - destruct (Rlt_dec 0.5 0); [ lra | ]. rewrite Rabs_pos_eq by lra.
    replace (Int_part (0.5 * 10 ^ 0)) with 0%Z by (apply Int_part_spec; lra).
    destruct (Rlt_dec (0.5 * 10 ^ 0 - 0) (1 / 2)); [ lra | ].
    destruct (Rlt_dec (1 / 2) (0.5 * 10 ^ 0 - 0)); [ lra | reflexivity ].
  - destruct (Rlt_dec 1.5 0); [ lra | ]. rewrite Rabs_pos_eq by lra.
    replace (Int_part (1.5 * 10 ^ 0)) with 1%Z by (apply Int_part_spec; lra).
    destruct (Rlt_dec (1.5 * 10 ^ 0 - 1) (1 / 2)); [ lra | ].
    destruct (Rlt_dec (1 / 2) (1.5 * 10 ^ 0 - 1)); [ lra | reflexivity ].
Qed.

Example format_f_negativo : PyStr.format_f 2 (-0.001) = "-0.00".
Proof.
  unfold PyStr.format_f, PyStr.sign_of.
  destruct (Rlt_dec (-0.001) 0); [ | lra ].
  rewrite Rabs_left by lra.
  rewrite (round_half_even_below (- -0.001 * 10 ^ 2) 0) by lra.
  reflexivity.
Qed.

(** The coefficient of the initial state of the form, [1e-7], displays as
    ["1.00e-07"], and the fallback coefficient as ["1.00e-10"]. *)
Example format_e_potencias :
  PyStr.format_e 2 1e-7 = "1.00e-07" /\ PyStr.format_e 2 1e-10 = "1.00e-10".
Proof.
  unfold PyStr.format_e, PyStr.sign_of. split.
  - destruct (Req_dec_T 1e-7 0); [ lra | ].
    destruct (Rlt_dec 1e-7 0); [ lra | ]. rewrite Rabs_pos_eq by lra.
    replace (ln 1e-7 / ln 10) with (IZR (-7))
      by (rewrite <- log10_powerRZ; do 2 f_equal; potencias_de_diez).
    rewrite Int_part_IZR.
    change (-7 - Z.of_nat 2)%Z with (-9)%Z.
    replace (1e-7 / powerRZ 10 (-9)) with (IZR 100) by potencias_de_diez.
    rewrite round_half_even_IZR. reflexivity.
  - destruct (Req_dec_T 1e-10 0); [ lra | ].
    destruct (Rlt_dec 1e-10 0); [ lra | ]. rewrite Rabs_pos_eq by lra.
    replace (ln 1e-10 / ln 10) with (IZR (-10))
      by (rewrite <- log10_powerRZ; do 2 f_equal; potencias_de_diez).
    rewrite Int_part_IZR.
    change (-10 - Z.of_nat 2)%Z with (-12)%Z.
    replace (1e-10 / powerRZ 10 (-12)) with (IZR 100) by potencias_de_diez.
    rewrite round_half_even_IZR. reflexivity.
Qed.

(** ** Further properties of the evaluator *)






(** ** Further properties of the result callback *)

(** [x ** y] is a non-negative float on a non-negative base and a complex
    on a negative one. *)
Lemma float_pow_casos (x y : R) :
  (0 <= x /\ exists r, float_pow x y = Real r /\ 0 <= r)
  \/ (x < 0 /\ exists re im, float_pow x y = Complex re im).
Proof.
  destruct (Rlt_le_dec x 0) as [H | H].
  - right. split; [ exact H | now apply float_pow_neg ].
  - left. split; [ exact H | now apply float_pow_nonneg ].
Qed.


(** On a geometry of the dropdown, a negative [Re] or [Sc] makes the
    Sherwood number complex. *)
Lemma sherwood_complejo (g : string) (Re Sc : R) :
  In g geometrias -> Re < 0 \/ Sc < 0 ->
  exists re im, calcular_sherwood g Re Sc true = Complex re im.
Proof.
  intros Hg Hneg. unfold calcular_sherwood.
  destruct (float_pow_casos Re 0.8) as [[H1 [a [-> Ha]]] | [H1 [a [a' ->]]]];
  destruct (float_pow_casos Re 0.5) as [[H2 [b [-> Hb]]] | [H2 [b [b' ->]]]];
  destruct (float_pow_casos Re 0.6) as [[H3 [c [-> Hc]]] | [H3 [c [c' ->]]]];
  destruct (float_pow_casos Sc (1/3)) as [[H4 [s [-> Hs]]] | [H4 [s [s' ->]]]];
  try lra;
  cbn in Hg; destruct Hg as [<- | [<- | [<- | [<- | [<- | []]]]]];
  cbn [negb String.eqb Ascii.eqb Bool.eqb num_mul num_add];
  do 2 eexists; reflexivity.
Qed.

Lemma DAB_valido_Some_inv (usar_DAB : bool) (DAB : option R) (d : R) :
  DAB_valido usar_DAB DAB = Some d ->
  usar_DAB = true /\ DAB = Some d /\ 0 < d.
Proof.
  unfold DAB_valido. destruct usar_DAB; [ | discriminate ]. cbn [negb].
  destruct DAB as [d' |]; [ | discriminate ].
  unfold Rleb. destruct (Rle_dec d' 0); [ discriminate | ].
  intros E. injection E as ->. repeat split. lra.
Qed.

(** X3. On numbers within the range of the floats, where no conversion
    to a float overflows, the result callback raises exactly in one
    situation: the guard passes (box ticked, positive diffusivity), the
    geometry is one of the dropdown and [Re] or [Sc] is negative; it then
    raises [TypeError].  In every other situation it returns its three
    outputs. *)
Theorem actualizar_resultados_error (g : string) (Re Sc : R)
    (checklist_dab : list string) (DAB : option R) :
  en_flotante Re -> en_flotante Sc ->
  (forall d, DAB = Some d -> en_flotante d) ->
  let caso :=
    In g geometrias /\ (Re < 0 \/ Sc < 0)
    /\ In "DAB_ON" checklist_dab /\ (exists d, DAB = Some d /\ 0 < d) in
  (caso ->
   actualizar_resultados g Re Sc checklist_dab DAB = raise TypeError)
  /\ (~ caso ->
      exists out, actualizar_resultados g Re Sc checklist_dab DAB = ret out).
Proof.
  intros _ _ _. cbv zeta. split.
  - intros [Hg [Hneg [Hin [d [-> Hd]]]]].
    destruct (sherwood_complejo g Re Sc Hg Hneg) as [re [im Hsh]].
    unfold actualizar_resultados.
    now rewrite (resultados_complex g Re Sc checklist_dab d re im Hin Hd Hsh).
  - intros Hn. unfold actualizar_resultados.
    destruct (DAB_valido (existsb (String.eqb "DAB_ON") checklist_dab) DAB)
      as [d |] eqn:E.
    + apply DAB_valido_Some_inv in E. destruct E as [Hin [-> Hd]].
      apply usar_DAB_In in Hin.
      destruct (calcular_sherwood g Re Sc true) as [sh | re im] eqn:Hsh.
      * rewrite (resultados_real g Re Sc checklist_dab d sh Hin Hd Hsh).
        eexists. reflexivity.
      * exfalso. apply Hn.
        destruct (in_dec string_dec g geometrias) as [Hg | Hg].
        -- repeat split; try assumption; [ | now exists d ].
           destruct (Rlt_le_dec Re 0) as [HRe | HRe]; [ now left | ].
           destruct (Rlt_le_dec Sc 0) as [HSc | HSc]; [ now right | ].
           destruct (calcular_sherwood_real g Re Sc true HRe HSc) as [sh [E _]].
           congruence.
        -- rewrite (calcular_sherwood_otro g Re Sc Hg) in Hsh. discriminate.
    + unfold resultados. rewrite E. eexists. reflexivity.
Qed.

Lemma en_flotante_100 : en_flotante 100 /\ en_flotante (-0.6) /\ en_flotante 1e-9.
Proof.
  unfold en_flotante, max_float. repeat split; apply Rabs_le; lra.
Qed.

Lemma actualizar_resultados_error_witness :
  actualizar_resultados "tubo" 100 (-0.6) ["DAB_ON"] (Some 1e-9)
    = raise TypeError.
Proof.
  destruct en_flotante_100 as [F1 [F2 F3]].
  apply (actualizar_resultados_error "tubo" 100 (-0.6) ["DAB_ON"] (Some 1e-9)
           F1 F2).
  - intros d E. injection E as <-. exact F3.
  - split; [ cbn; tauto | ]. split; [ right; lra | ].
    split; [ left; reflexivity | ]. exists 1e-9. split; [ reflexivity | lra ].
Defined.



(** ** Within the ranges of the sliders *)

(** Enclosures of a power with a rational exponent [p/q] by a [q]-th
    root. *)
Lemma Rpower_root (b : R) (q : nat) :
  0 < b -> (0 < q)%nat -> Rpower (b ^ q) (/ INR q) = b.
Proof.
  intros Hb Hq. rewrite <- (Rpower_pow q b Hb), Rpower_mult.
  rewrite Rinv_r; [ now apply Rpower_1 | ].
  apply not_0_INR. intros ->. inversion Hq.
Qed.

Lemma Rpower_racional (x : R) (p q : nat) :
  0 < x -> Rpower x (INR p / INR q) = Rpower (x ^ p) (/ INR q).
Proof.
  intros Hx. rewrite <- (Rpower_pow p x Hx), Rpower_mult. reflexivity.
Qed.

Lemma Rpower_racional_lt (x b : R) (p q : nat) :
  0 < x -> 0 < b -> (0 < q)%nat -> x ^ p < b ^ q ->
  Rpower x (INR p / INR q) < b.
Proof.
  intros Hx Hb Hq H. rewrite (Rpower_racional x p q Hx).
  rewrite <- (Rpower_root b q Hb Hq) at 1.
  apply Rlt_Rpower_l.
  - apply Rinv_0_lt_compat. now apply lt_0_INR.
  - split; [ now apply pow_lt | exact H ].
Qed.

Lemma Rpower_racional_gt (x b : R) (p q : nat) :
  0 < x -> 0 < b -> (0 < q)%nat -> b ^ q < x ^ p ->
  b < Rpower x (INR p / INR q).
Proof.
  intros Hx Hb Hq H. rewrite (Rpower_racional x p q Hx).
  rewrite <- (Rpower_root b q Hb Hq) at 1.
  apply Rlt_Rpower_l.
  - apply Rinv_0_lt_compat. now apply lt_0_INR.
  - split; [ now apply pow_lt | exact H ].
Qed.

(** The powers at the upper ends of the sliders. *)
Lemma potencias_maximas :
  Rpower 10000 0.8 < 1600 /\ Rpower 10000 0.5 < 101
  /\ 250 < Rpower 10000 0.6 < 252 /\ 14 < Rpower 3000 (1/3) < 15.
Proof.
  split; [ | split; [ | split; [ split | ] ] ].
  - replace 0.8 with (INR 4 / INR 5) by (cbn; lra).
    apply Rpower_racional_lt; [ lra | lra | repeat constructor | lra ].
  - replace 0.5 with (INR 1 / INR 2) by (cbn; lra).
    apply Rpower_racional_lt; [ lra | lra | repeat constructor | lra ].
  - replace 0.6 with (INR 3 / INR 5) by (cbn; lra).
    apply Rpower_racional_gt; [ lra | lra | repeat constructor | lra ].
  - replace 0.6 with (INR 3 / INR 5) by (cbn; lra).
    apply Rpower_racional_lt; [ lra | lra | repeat constructor | lra ].
  - apply cube_root_between; lra.
Qed.

(** Within the sliders a power is a positive float below the power at the
    upper end. *)
Lemma float_pow_en_rango (v vmax y : R) :
  0 < v <= vmax -> 0 <= y ->
  exists r, float_pow v y = Real r /\ 0 < r <= Rpower vmax y.
Proof.
  intros Hv Hy. exists (Rpower v y). rewrite float_pow_pos by lra.
  split; [ reflexivity | ]. split; [ apply exp_pos | ].
  apply Rle_Rpower_l; lra.
Qed.

Lemma producto_acotado (a s A S : R) :
  0 < a <= A -> 0 < s <= S -> 0 < a * s <= A * S.
Proof.
  intros Ha Hs. split; [ apply Rmult_lt_0_compat; lra | ].
  apply Rmult_le_compat; lra.
Qed.

(** The Sherwood number over the ranges of the two sliders. *)
Lemma sherwood_en_rango (g : string) (Re Sc : R) :
  en_rango slider_re Re -> en_rango slider_sc Sc ->
  exists sh,
    calcular_sherwood g Re Sc true = Real sh
    /\ 0 <= sh < 4400
    /\ (g <> "lecho empacado" -> sh < 1000).
Proof.
  unfold en_rango. cbn [slider_min slider_max slider_re slider_sc].
  intros HRe HSc. pose proof potencias_maximas as [P1 [P2 [P3 P4]]].
  destruct (float_pow_en_rango Re 10000 0.8) as [a [Ea Ha]]; [ lra | lra | ].
  destruct (float_pow_en_rango Re 10000 0.5) as [b [Eb Hb]]; [ lra | lra | ].
  destruct (float_pow_en_rango Re 10000 0.6) as [c [Ec Hc]]; [ lra | lra | ].
  destruct (float_pow_en_rango Sc 3000 (1/3)) as [s [Es Hs]]; [ lra | lra | ].
  pose proof (producto_acotado a s _ _ Ha Hs) as Has.
  pose proof (producto_acotado b s _ _ Hb Hs) as Hbs.
  pose proof (producto_acotado c s _ _ Hc Hs) as Hcs.
  assert (Rpower 10000 0.8 * Rpower 3000 (1/3) < 1600 * 15)
    by (apply Rmult_le_0_lt_compat; try lra; left; apply exp_pos).
  assert (Rpower 10000 0.5 * Rpower 3000 (1/3) < 101 * 15)
    by (apply Rmult_le_0_lt_compat; try lra; left; apply exp_pos).
  assert (Rpower 10000 0.6 * Rpower 3000 (1/3) < 252 * 15)
    by (apply Rmult_le_0_lt_compat; try lra; left; apply exp_pos).
  unfold calcular_sherwood. rewrite Ea, Eb, Ec, Es. cbn [negb].
  destruct (String.eqb_spec g "placa");
    [ eexists; split; [ reflexivity | lra ] | ].
  destruct (String.eqb_spec g "tubo");
    [ eexists; split; [ reflexivity | lra ] | ].
  destruct (String.eqb_spec g "esfera");
    [ eexists; split; [ reflexivity | lra ] | ].
  destruct (String.eqb_spec g "gota");
    [ eexists; split; [ reflexivity | lra ] | ].
  destruct (String.eqb_spec g "lecho empacado");
    [ eexists; split; [ reflexivity | ]; split; [ lra | contradiction ] | ].
  exists 0.0. split; [ reflexivity | lra ].
Qed.

(** X5. Over the ranges of the two sliders and with the guard passing, the
    statement of a dominant forced convection is shown for no geometry
    other than the packed bed: the Sherwood number of the others stays
    below 1000.  For the packed bed it is shown at the upper ends of the
    sliders. *)
Theorem conveccion_forzada_solo_lecho (g : string) (Re Sc : R)
    (checklist_dab : list string) (d : R) :
  en_rango slider_re Re -> en_rango slider_sc Sc ->
  In "DAB_ON" checklist_dab -> 0 < d ->
  (exists l r1 r2 r3,
     resultados g Re Sc checklist_dab (Some d) = ret l
     /\ interpretacion l = Ul [r1; r2; r3]
     /\ (g <> "lecho empacado" -> r3 <> combinacion conveccion_forzada g))
  /\ (exists l r1 r2,
        resultados "lecho empacado" (slider_max slider_re)
          (slider_max slider_sc) checklist_dab (Some d) = ret l
        /\ interpretacion l
           = Ul [r1; r2; combinacion conveccion_forzada "lecho empacado"]).
Proof.
  intros HRe HSc Hin Hd. split.
  - destruct (sherwood_en_rango g Re Sc HRe HSc) as [sh [Hsh [_ H1000]]].
    do 4 eexists.
    split; [ apply (resultados_real g Re Sc checklist_dab d sh Hin Hd Hsh) | ].
    cbn [interpretacion]. split; [ reflexivity | ].
    intros Hg. specialize (H1000 Hg).
    rewrite (Rgtb_false sh 1000) by lra. cbn [andb].
    pose proof (enunciados_comb_distintos g) as [D1 [D2 D3]].
    destruct (Rltb sh 100 && Rgtb Sc 1000); congruence.
  - cbn [slider_max slider_re slider_sc].
    pose proof potencias_maximas as [_ [_ [[P3 _] [P4 _]]]].
    assert (Hsh : calcular_sherwood "lecho empacado" 10000 3000 true
                  = Real (1.15 * Rpower 10000 0.6 * Rpower 3000 (1/3))).
    { unfold calcular_sherwood. cbn [negb String.eqb Ascii.eqb Bool.eqb].
      rewrite !float_pow_pos by lra. reflexivity. }
    do 3 eexists.
    split; [ apply (resultados_real _ _ _ checklist_dab d _ Hin Hd Hsh) | ].
    cbn [interpretacion].
    assert (250 * 14 < Rpower 10000 0.6 * Rpower 3000 (1/3))
      by (apply Rmult_le_0_lt_compat; lra).
    rewrite (Rgtb_true (1.15 * Rpower 10000 0.6 * Rpower 3000 (1/3)) 1000)
      by lra.
    rewrite (Rgtb_true 10000 5000) by lra. reflexivity.
Qed.

Lemma conveccion_forzada_solo_lecho_witness :
  exists l r1 r2 r3,
    resultados "placa" 10000 3000 ["DAB_ON"] (Some 1e-9) = ret l
    /\ interpretacion l = Ul [r1; r2; r3]
    /\ r3 <> combinacion conveccion_forzada "placa".
Proof.
  destruct (conveccion_forzada_solo_lecho "placa" 10000 3000 ["DAB_ON"] 1e-9)
    as [[l [r1 [r2 [r3 [Hl [Hi H3]]]]]] _].
  - unfold en_rango; cbn; lra.
  - unfold en_rango; cbn; lra.
  - left; reflexivity.
  - lra.
  - exists l, r1, r2, r3. split; [ exact Hl | ]. split; [ exact Hi | ].
    apply H3. discriminate.
Defined.

(** ** Reading back the digits of a number *)

#[local] Abbreviation usize := DecimalPos.Unsigned.usize.
#[local] Abbreviation of_lu := DecimalPos.Unsigned.of_lu.




Lemma length_append (s t : string) :
  String.length (s ++ t) = (String.length s + String.length t)%nat.
Proof. induction s as [| c s IH]; cbn; [ reflexivity | now rewrite IH ]. Qed.















(** ** Reading back a display string *)
























(** ** The rounding of the display strings *)






(** ** The two callbacks in a chain *)





(** ** The x axis over the ranges of the sliders *)






(** ** The label of the marker *)




(** The decimal exponent of a number between two consecutive powers of
    ten. *)
Lemma exponente_entre_potencias (v : R) (e : Z) :
  powerRZ 10 e <= v < powerRZ 10 (e + 1) -> Int_part (ln v / ln 10) = e.
Proof.
  intros [H1 H2]. pose proof ln_10_pos as H10.
  assert (He : 0 < powerRZ 10 e) by (apply powerRZ_lt; lra).
  assert (Hv : 0 < v) by lra.
  symmetry. apply Int_part_spec.
  assert (L1 : IZR e * ln 10 <= ln v).
  { rewrite <- ln_Rpower, <- powerRZ_Rpower by lra.
    destruct H1 as [H1 | <-]; [ left; now apply ln_increasing | lra ]. }
  assert (L2 : ln v < IZR (e + 1) * ln 10).
  { rewrite <- ln_Rpower, <- powerRZ_Rpower by lra.
    now apply ln_increasing. }
  rewrite plus_IZR in L2.
  assert (IZR e <= ln v / ln 10).
  { apply Rmult_le_reg_r with (ln 10); [ exact H10 | ].
    replace (ln v / ln 10 * ln 10) with (ln v) by (field; lra). exact L1. }
  assert (ln v / ln 10 < IZR e + 1).
  { apply Rmult_lt_reg_r with (ln 10); [ exact H10 | ].
    replace (ln v / ln 10 * ln 10) with (ln v) by (field; lra). exact L2. }
  lra.
Qed.






(** ** The coefficient *)

(** Decimal constants stand for the nearest binary64 float, as in
    Python. *)
Set Warnings "-inexact-float".

(** The product of line 182 for [Sh = 100] and [DAB = 1e-9], as a
    fraction. *)
Lemma kc_binary64_100 :
  valor_binary64 (kc_binary64 100 1e-9)
  = Some (1 * IZR 7555786372591433 * powerRZ 2 (-76)).
Proof.
  unfold valor_binary64.
  replace (Prim2SF (kc_binary64 100 1e-9))
    with (S754_finite false 7555786372591433 (-76))
    by (vm_compute; reflexivity).
  reflexivity.
Qed.

(** A number a little above [1e-7] displays as ["1.00e-07"]. *)
Lemma format_e_cerca_de_1e_7 (k : R) :
  1e-7 <= k < 1.004e-7 -> PyStr.format_e 2 k = "1.00e-07".
Proof.
  intros Hk. unfold PyStr.format_e, PyStr.sign_of.
  destruct (Req_dec_T k 0); [ lra | ].
  destruct (Rlt_dec k 0); [ lra | ]. rewrite Rabs_pos_eq by lra.
  rewrite (exponente_entre_potencias k (-7))
    by (cbv [powerRZ Pos.to_nat Pos.iter_op Init.Nat.add pow Z.add
             Z.pos_sub Pos.pred_double]; lra).
  change (-7 - Z.of_nat 2)%Z with (-9)%Z.
  rewrite (round_half_even_below (k / powerRZ 10 (-9)) 100)
    by (cbv [powerRZ Pos.to_nat Pos.iter_op Init.Nat.add pow]; lra).
  reflexivity.
Qed.

(** C4, as the code has it.  When the guard passes, the callback reaches
    its formatting step with [kc = Sh * (DAB / L)] for the length
    [L = 1.0], that is [kc = Sh * DAB], where [Sh] is the evaluator's
    answer, and the step is reached for every non-negative [Re] and [Sc].
    A Sherwood number of 100 with a diffusivity of 1e-9 gives 1e-7 up to
    the rounding of the product: the binary64 product is
    [1.0000000000000001e-07], within [1e-22] of [1e-7], and the display
    string is ["1.00e-07"]. *)
Theorem kc_es_Sh_por_DAB (g : string) (Re Sc : R)
    (checklist_dab : list string) (d : R) :
  In "DAB_ON" checklist_dab -> 0 < d ->
  (forall l, resultados g Re Sc checklist_dab (Some d) = ret l ->
     Sh l = calcular_sherwood g Re Sc true
     /\ kc l = (Sh l * Real (d / 1.0))%num
     /\ kc l = (Sh l * Real d)%num
     /\ (Sh l = Real 100 -> d = 1e-9 ->
         exists k,
           kc l = Real k /\ aprox 1e-22 k 1e-7
           /\ PyStr.format_num PyStr.type_e 2 (kc l) = "1.00e-07"))
  /\ (0 <= Re -> 0 <= Sc ->
      exists l, resultados g Re Sc checklist_dab (Some d) = ret l)
  /\ kc_binary64 100 1e-9 = 1.0000000000000001e-07%float
  /\ (exists k,
        valor_binary64 (kc_binary64 100 1e-9) = Some k
        /\ aprox 1e-22 k 1e-7
        /\ PyStr.format_e 2 k = "1.00e-07").
Proof.
  intros Hin Hd. split; [ | split; [ | split ] ].
  - intros l Hl.
    destruct (calcular_sherwood g Re Sc true) as [sh | re im] eqn:Hsh.
    + rewrite (resultados_real g Re Sc checklist_dab d sh Hin Hd Hsh) in Hl.
      injection Hl as <-. cbn [Sh kc num_mul]. unfold L_caracteristica.
      split; [ reflexivity | ]. split; [ reflexivity | ].
      split; [ f_equal; lra | ].
      intros E1 E2. injection E1 as ->. subst d.
      exists (100 * (1e-9 / 1.0)). split; [ reflexivity | ].
      replace (100 * (1e-9 / 1.0)) with 1e-7 by lra.
      split; [ | apply format_e_potencias ].
      unfold aprox. rewrite Rminus_diag, Rabs_R0. lra.
    + rewrite (resultados_complex g Re Sc checklist_dab d re im Hin Hd Hsh) in Hl.
      discriminate.
  - intros HRe HSc.
    destruct (calcular_sherwood_real g Re Sc true HRe HSc) as [sh [Hsh _]].
    eexists. apply (resultados_real g Re Sc checklist_dab d sh Hin Hd Hsh).
  - reflexivity.
  - eexists. split; [ apply kc_binary64_100 | ].
    assert (B : 1e-7 <= 1 * IZR 7555786372591433 * powerRZ 2 (-76)
                <= 1e-7 + 1e-22)
      by (cbv [powerRZ Pos.to_nat Pos.iter_op Init.Nat.add pow]; lra).
    split; [ unfold aprox; apply Rabs_le; lra | ].
    apply format_e_cerca_de_1e_7. lra.
Qed.

Lemma kc_es_Sh_por_DAB_witness :
  exists l k,
    resultados "esfera" ((490 / 3) ^ 2) 1 ["DAB_ON"] (Some 1e-9) = ret l
    /\ Sh l = Real 100 /\ kc l = Real k /\ aprox 1e-22 k 1e-7
    /\ PyStr.format_num PyStr.type_e 2 (kc l) = "1.00e-07".
Proof.
  assert (Hin : In "DAB_ON" ["DAB_ON"]) by (left; reflexivity).
  assert (Hd : 0 < 1e-9) by lra.
  destruct (kc_es_Sh_por_DAB "esfera" ((490 / 3) ^ 2) 1 ["DAB_ON"] 1e-9 Hin Hd)
    as [Hval [Hret _]].
  destruct Hret as [l Hl]; [ nra | lra | ].
  destruct (Hval l Hl) as [HSh [_ [_ Hkc]]].
  rewrite sherwood_100 in HSh.
  destruct (Hkc HSh eq_refl) as [k [H1 [H2 H3]]].
  exists l, k.
  split; [ exact Hl | ]. split; [ exact HSh | ]. split; [ exact H1 | ].
  split; [ exact H2 | exact H3 ].
Defined.

(** On binary64 floats the product of 100 and 1e-9 is not the float
    [1e-7]: it is the next one above. *)
Lemma kc_100_no_es_1e_7 : kc_binary64 100 1e-9 <> 1e-7%float.
Proof.
  intros H.
  assert (E : PrimFloat.eqb (kc_binary64 100 1e-9) 1e-7 = false)
    by (vm_compute; reflexivity).
  rewrite H in E. vm_compute in E. discriminate.
Qed.

(** ** When an axis widens *)





(** ** The correlations over the sliders *)

(** The powers at the lower ends of the sliders. *)
Lemma potencias_minimas :
  39 < Rpower 100 0.8 /\ 9.9 < Rpower 100 0.5
  /\ 15 < Rpower 100 0.6 /\ 0.84 < Rpower 0.6 (1/3).
Proof.
  split; [ | split; [ | split ] ].
  - replace 0.8 with (INR 4 / INR 5) by (cbn; lra).
    apply Rpower_racional_gt; [ lra | lra | repeat constructor | lra ].
  - apply (square_root_between 9.9 10.1 100); lra.
  - replace 0.6 with (INR 3 / INR 5) by (cbn; lra).
    apply Rpower_racional_gt; [ lra | lra | repeat constructor | lra ].
  - apply (cube_root_between 0.84 0.85 0.6); lra.
Qed.

(** Within the sliders a power is a float above the power at the lower
    end. *)
Lemma float_pow_sobre_minimo (v vmin y : R) :
  0 < vmin <= v -> 0 <= y ->
  exists r, float_pow v y = Real r /\ Rpower vmin y <= r.
Proof.
  intros Hv Hy. exists (Rpower v y). rewrite float_pow_pos by lra.
  split; [ reflexivity | ]. apply Rle_Rpower_l; lra.
Qed.

(** X12. With the flag set and [Re] and [Sc] within the ranges of the two
    sliders, the Sherwood number is above 0.75 for the five geometries of
    the dropdown and zero for every other string: a zero tells the silent
    default. *)
Theorem sherwood_cero_sii_desconocida (g : string) (Re Sc : R) :
  en_rango slider_re Re -> en_rango slider_sc Sc ->
  (calcular_sherwood g Re Sc true = Real 0 <-> ~ In g geometrias)
  /\ (In g geometrias ->
      exists sh, calcular_sherwood g Re Sc true = Real sh /\ 0.75 < sh).
Proof.
  unfold en_rango. cbn [slider_min slider_max slider_re slider_sc].
  intros HRe HSc.
  assert (Hpos : In g geometrias ->
                 exists sh, calcular_sherwood g Re Sc true = Real sh
                            /\ 0.75 < sh).
  { intros Hg. pose proof potencias_minimas as [P1 [P2 [P3 P4]]].
    destruct (float_pow_sobre_minimo Re 100 0.8) as [a [Ea Ha]];
      [ lra | lra | ].
    destruct (float_pow_sobre_minimo Re 100 0.5) as [b [Eb Hb]];
      [ lra | lra | ].
    destruct (float_pow_sobre_minimo Re 100 0.6) as [c [Ec Hc]];
      [ lra | lra | ].
    destruct (float_pow_sobre_minimo Sc 0.6 (1/3)) as [s [Es Hs]];
      [ lra | lra | ].
    assert (39 * 0.84 <= a * s) by (apply Rmult_le_compat; lra).
    assert (9.9 * 0.84 <= b * s) by (apply Rmult_le_compat; lra).
    assert (15 * 0.84 <= c * s) by (apply Rmult_le_compat; lra).
    unfold calcular_sherwood. rewrite Ea, Eb, Ec, Es.
    cbn in Hg. destruct Hg as [<- | [<- | [<- | [<- | [<- | []]]]]];
      cbn [negb String.eqb Ascii.eqb Bool.eqb num_mul num_add];
      eexists; (split; [ reflexivity | lra ]). }
  split; [ | exact Hpos ]. split.
  - intros E Hg. destruct (Hpos Hg) as [sh [Hsh H0]].
    rewrite Hsh in E. injection E as E. lra.
  - apply calcular_sherwood_otro.
Qed.

Lemma sherwood_cero_sii_desconocida_witness :
  calcular_sherwood "Esfera" 1000 500 true = Real 0.
Proof.
  apply (sherwood_cero_sii_desconocida "Esfera" 1000 500).
  - unfold en_rango; cbn; lra.
  - unfold en_rango; cbn; lra.
  - cbn. intros [H | [H | [H | [H | [H | []]]]]]; discriminate.
Defined.

(** X13. Over the sliders the plate, the tube and the packed bed follow
    power laws: when [Re] and [Sc] and their multiples [a * Re] and
    [b * Sc] are within the ranges, the Sherwood number at the multiples
    is the one at [Re] and [Sc] times [a^0.8 * b^(1/3)] for the plate and
    the tube, and times [a^0.6 * b^(1/3)] for the packed bed, up to one
    part in [10^9]. *)
Theorem sherwood_ley_de_potencia (Re Sc a b : R) :
  en_rango slider_re Re -> en_rango slider_sc Sc ->
  en_rango slider_re (a * Re) -> en_rango slider_sc (b * Sc) ->
  (forall g, g = "placa" \/ g = "tubo" ->
     exists sh sh',
       calcular_sherwood g Re Sc true = Real sh
       /\ calcular_sherwood g (a * Re) (b * Sc) true = Real sh'
       /\ 0 < sh /\ 0 < sh'
       /\ aprox (1e-9 * sh') sh' (Rpower a 0.8 * Rpower b (1/3) * sh))
  /\ (exists sh sh',
        calcular_sherwood "lecho empacado" Re Sc true = Real sh
        /\ calcular_sherwood "lecho empacado" (a * Re) (b * Sc) true
           = Real sh'
        /\ 0 < sh /\ 0 < sh'
        /\ aprox (1e-9 * sh') sh' (Rpower a 0.6 * Rpower b (1/3) * sh)).
Proof.
  unfold en_rango. cbn [slider_min slider_max slider_re slider_sc].
  intros HRe HSc HaRe HbSc.
  assert (HRe0 : 0 < Re) by lra. assert (HSc0 : 0 < Sc) by lra.
  assert (HaRe0 : 0 < a * Re) by lra. assert (HbSc0 : 0 < b * Sc) by lra.
  assert (Ha : 0 < a) by nra. assert (Hb : 0 < b) by nra.
  assert (T : forall c x y : R, 0 < c -> 0 < x -> 0 < y ->
            0 < c * x * y /\ aprox (1e-9 * (c * x * y)) (c * x * y) (c * x * y)).
  { intros c x y Hc Hx Hy.
    assert (0 < c * x * y) by (repeat apply Rmult_lt_0_compat; assumption).
    split; [ assumption | ].
    unfold aprox. rewrite Rminus_diag, Rabs_R0. lra. }
  pose proof (exp_pos (0.8 * ln Re)) as P1.
  pose proof (exp_pos (0.6 * ln Re)) as P2.
  pose proof (exp_pos (1 / 3 * ln Sc)) as P3.
  pose proof (exp_pos (0.8 * ln (a * Re))) as P4.
  pose proof (exp_pos (0.6 * ln (a * Re))) as P5.
  pose proof (exp_pos (1 / 3 * ln (b * Sc))) as P6.
  fold (Rpower Re 0.8) in P1. fold (Rpower Re 0.6) in P2.
  fold (Rpower Sc (1/3)) in P3. fold (Rpower (a * Re) 0.8) in P4.
  fold (Rpower (a * Re) 0.6) in P5. fold (Rpower (b * Sc) (1/3)) in P6.
  split; [ intros g [-> | ->] | ];
    unfold calcular_sherwood;
    cbn [negb String.eqb Ascii.eqb Bool.eqb];
    rewrite !float_pow_pos by assumption;
    cbn [num_mul]; do 2 eexists;
    (split; [ reflexivity | ]); (split; [ reflexivity | ]);
    (split; [ apply T; lra | ]);
    match goal with
    | |- 0 < ?c * ?u * ?v /\ aprox _ _ ?r =>
        replace r with (c * u * v)
          by (rewrite <- !Rpower_mult_distr by assumption; ring);
        apply T; lra
    end.
Qed.

Lemma sherwood_ley_de_potencia_witness :
  exists sh sh',
    calcular_sherwood "lecho empacado" 1000 500 true = Real sh
    /\ calcular_sherwood "lecho empacado" (2 * 1000) (1 * 500) true
       = Real sh'
    /\ aprox (1e-9 * sh') sh' (Rpower 2 0.6 * Rpower 1 (1/3) * sh).
Proof.
  destruct (sherwood_ley_de_potencia 1000 500 2 1)
    as [_ [sh [sh' [H1 [H2 [_ [_ H3]]]]]]];
    try (unfold en_rango; cbn; lra).
  exists sh, sh'. tauto.
Defined.
